(** * Heyatyar employee app: the natural-language-to-SQL bridge

    A shallow embedding of [heyatyar_streamlit_app.py]: the retry loop
    of [get_llm_response], the extraction and validation of the SQL
    candidate in the "Ask AI" handler, [execute_sql_query], the shaping
    of the fetched rows and [delete_employee].

    Python text is modelled as a list of characters with code points
    below 256 (Latin-1); [str.lower], [str.strip] and the regular
    expression classes are the restrictions of Python's to that range.
    Calls to Streamlit, litellm, sqlite3 and pandas are recorded as
    events; what the outside world answers (the completion endpoint,
    the SQL engine) is an input of the model. *)

From Stdlib Require Import ZArith List Ascii String Bool Lia Arith.
From Stdlib Require Import DecimalString.
Import ListNotations.

Set Implicit Arguments.

(** ** Text *)

Module Text.

Definition str := list ascii.

Definition lit (s : string) : str := list_ascii_of_string s.

Definition code (c : ascii) : nat := nat_of_ascii c.

(** [str.isspace] on one character: the set used by [str.strip] and by
    the class [\s] of a Unicode pattern. *)
Definition is_space (c : ascii) : bool :=
  let n := code c in
  ((9 <=? n) && (n <=? 13)) || ((28 <=? n) && (n <=? 32))
  || (n =? 133) || (n =? 160).

(** [str.lower] on one character. *)
Definition lower_char (c : ascii) : ascii :=
  let n := code c in
  if ((65 <=? n) && (n <=? 90))
     || ((192 <=? n) && (n <=? 222) && negb (n =? 215))
  then ascii_of_nat (n + 32) else c.

Definition lower (s : str) : str := map lower_char s.

Fixpoint lstrip (s : str) : str :=
  match s with
  | c :: s' => if is_space c then lstrip s' else s
  | [] => []
  end.

(** Drops the trailing run of whitespace: a character is kept as long as
    something other than whitespace follows or it is not whitespace. *)
Fixpoint rstrip (s : str) : str :=
  match s with
  | c :: s' => if forallb is_space s then [] else c :: rstrip s'
  | [] => []
  end.

Definition strip (s : str) : str := rstrip (lstrip s).

Fixpoint startswith (p s : str) : bool :=
  match p, s with
  | [], _ => true
  | a :: p', b :: s' => Ascii.eqb a b && startswith p' s'
  | _ :: _, [] => false
  end.

(** [p in s] *)
Fixpoint contains (p s : str) : bool :=
  startswith p s ||
  match s with
  | _ :: s' => contains p s'
  | [] => false
  end.

Fixpoint str_eqb (a b : str) : bool :=
  match a, b with
  | [], [] => true
  | x :: a', y :: b' => Ascii.eqb x y && str_eqb a' b'
  | _, _ => false
  end.

(** [str(n)] for an [int] *)
Definition str_of_int (z : Z) : str := lit (NilZero.string_of_int (Z.to_int z)).

Definition str_of_nat (n : nat) : str := str_of_int (Z.of_nat n).

End Text.

Import Text.

(** ** Regular expressions: the backtracking matcher of [re] *)

Module Re.

Record flags := { IGNORECASE : bool; DOTALL : bool }.

Inductive atom :=
| Literal (c : ascii)
| Whitespace
| AnyChar.

Inductive node :=
| One (a : atom)
| MaxRepeat (a : atom)
| MinRepeat (a : atom)
| GroupOpen
| GroupClose.

Definition pattern := list node.

Definition atom_matches (fl : flags) (a : atom) (c : ascii) : bool :=
  match a with
  | Literal l =>
      if IGNORECASE fl then Ascii.eqb (lower_char c) (lower_char l)
      else Ascii.eqb c l
  | Whitespace => is_space c
  | AnyChar => DOTALL fl || negb (Ascii.eqb c "010"%char)
  end.

Definition push (recording : bool) (c : ascii) (group : str) : str :=
  if recording then group ++ [c] else group.

(** [run fl p s recording group]: match [p] at the start of [s]; the
    result is the text of group 1. A greedy repeat tries the longest
    run first and gives characters back one at a time, a lazy repeat
    tries the shortest first. *)
Fixpoint run (fl : flags) (p : pattern) (s : str) (recording : bool)
    (group : str) {struct p} : option str :=
  match p with
  | [] => Some group
  | One a :: p' =>
      match s with
      | c :: s' =>
          if atom_matches fl a c then run fl p' s' recording (push recording c group)
          else None
      | [] => None
      end
  | MaxRepeat a :: p' =>
      (fix greedy (s : str) (group : str) {struct s} : option str :=
         match s with
         | c :: s' =>
             if atom_matches fl a c then
               match greedy s' (push recording c group) with
               | Some g => Some g
               | None => run fl p' s recording group
               end
             else run fl p' s recording group
         | [] => run fl p' s recording group
         end) s group
  | MinRepeat a :: p' =>
      (fix lazy (s : str) (group : str) {struct s} : option str :=
         match run fl p' s recording group with
         | Some g => Some g
         | None =>
             match s with
             | c :: s' =>
                 if atom_matches fl a c then lazy s' (push recording c group)
                 else None
             | [] => None
             end
         end) s group
  | GroupOpen :: p' => run fl p' s true []
  | GroupClose :: p' => run fl p' s false group
  end.

(** [re.search(p, s, fl)], reduced to [group(1)] of the match found:
    the leftmost start position at which [p] matches. *)
Fixpoint search (fl : flags) (p : pattern) (s : str) : option str :=
  match run fl p s false [] with
  | Some g => Some g
  | None =>
      match s with
      | _ :: s' => search fl p s'
      | [] => None
      end
  end.

Definition literal (s : string) : pattern := map (fun c => One (Literal c)) (lit s).

End Re.

Import Re.

(** ** Effects: exceptions and the log of calls to the outside *)

(** The exception classes the source distinguishes, with [str(e)]. *)
Inductive exn :=
| sqlite3_Error (detail : str)
| RateLimitError (detail : str)
| ValueError (detail : str)
| Exception (detail : str).

Definition str_of_exn (e : exn) : str :=
  match e with
  | sqlite3_Error d | RateLimitError d | ValueError d | Exception d => d
  end.

Inductive outcome (A : Type) :=
| Return (a : A)
| Raise (e : exn).

Arguments Raise {A} e.

(** Python's formatting of fetched values is a builtin and is taken
    as given: [str_cell x] is [str(x)] of one value, [str_rows d] is
    [str(d)] of a fetched list of tuples. *)
Class Python := {
  cell : Type;
  str_cell : cell -> str;
  str_rows : list (list cell) -> str
}.

Section Effects.

Context {py : Python}.

Record DataFrame := { columns : list str; values : list (list cell) }.

Inductive event :=
| st_info (body : str)
| st_warning (body : str)
| st_error (body : str)
| st_success (body : str)
| st_subheader (body : str)
| st_spinner (text : str)
| st_dataframe (df : DataFrame)
| litellm_completion (model : str) (messages : list (str * str))
| time_sleep (secs : Z)
| sqlite3_connect (database : str)
| cur_execute (sql : str) (parameters : list str)
| cur_fetchall
| conn_commit
| conn_close.

(** A computation: its result or the exception it raises, and the calls
    it made, in order. *)
Definition io (A : Type) : Type := outcome A * list event.

Definition ret {A} (a : A) : io A := (Return a, []).

Definition raise {A} (e : exn) : io A := (Raise e, []).

Definition emit (e : event) : io unit := (Return tt, [e]).

Definition bind {A B} (m : io A) (k : A -> io B) : io B :=
  match m with
  | (Return a, t) => let (r, t') := k a in (r, t ++ t')
  | (Raise e, t) => (Raise e, t)
  end.

(** [try: body  except sqlite3.Error as e: handler(str(e))] *)
Definition try_except_sqlite3 {A} (body : io A) (handler : str -> io A) : io A :=
  match body with
  | (Raise (sqlite3_Error d), t) => let (r, t') := handler d in (r, t ++ t')
  | other => other
  end.

(** [try: body  finally: cleanup] *)
Definition try_finally {A} (body : io A) (cleanup : io unit) : io A :=
  match body, cleanup with
  | (r, t), (Return _, t') => (r, t ++ t')
  | (_, t), (Raise e, t') => (Raise e, t ++ t')
  end.

(** A call into a library whose answer is given: logged, then it
    returns or raises. *)
Definition call {A} (e : event) (answer : outcome A) : io A := (answer, [e]).

Definition calls_out {A} (m : io A) : list event := snd m.

End Effects.

Notation "x <- c1 ;; c2" := (bind c1 (fun x => c2))
  (at level 61, c1 at next level, right associativity).
Notation "c1 ;; c2" := (bind c1 (fun _ => c2))
  (at level 61, right associativity).

(** ** Database functions *)

Module Crud.
Section Crud.

Context {py : Python}.

(** A row of EMPLOYEE: the two columns the statements below select on,
    and the remaining seven values. *)
Record employee := { ID : Z; NAME : str; attributes : list cell }.

(** An open connection: the committed table, and whether the engine
    refuses the next statement (locked file, missing table, ...), with
    the message of the [sqlite3.Error] it then raises. The integers
    bound to a statement are taken to fit SQLite's 64 bits, as those of
    the forms do; values are stored as they are bound. *)
Record connection := { EMPLOYEE : list employee; refuses : option str }.

Inductive parameter := by_id (i : Z) | by_name (n : str).

Definition selected (p : parameter) (e : employee) : bool :=
  match p with
  | by_id i => (ID e =? i)%Z
  | by_name n => str_eqb (NAME e) n
  end.

Definition str_of_parameter (p : parameter) : str :=
  match p with
  | by_id i => str_of_int i
  | by_name n => n
  end.

(** [cur.execute("DELETE FROM EMPLOYEE WHERE <column> = ?", param)]:
    the connection after it and [cur.rowcount]. *)
Definition execute_delete (conn : connection) (sql : str) (p : parameter)
  : io (connection * Z) :=
  call (cur_execute sql [str_of_parameter p])
    match refuses conn with
    | Some d => Raise (sqlite3_Error d)
    | None =>
        let kept := filter (fun e => negb (selected p e)) (EMPLOYEE conn) in
        Return ({| EMPLOYEE := kept; refuses := None |},
                Z.of_nat (List.length (filter (selected p) (EMPLOYEE conn))))
    end.

Definition delete_employee (conn : connection)
    (employee_id : option Z) (employee_name : option str)
  : io (bool * connection) :=
  let target :=
    match employee_id, employee_name with
    | Some i, _ => Some (lit "DELETE FROM EMPLOYEE WHERE ID = ?", by_id i)
    | None, Some n => Some (lit "DELETE FROM EMPLOYEE WHERE NAME = ?", by_name n)
    | None, None => None
    end in
  match target with
  | None =>
      emit (st_error (lit "Please provide either an Employee ID or a Name to delete.")) ;;
      ret (false, conn)
  | Some (sql, param) =>
      try_except_sqlite3
        (r <- execute_delete conn sql param ;;
         let (conn', rowcount) := r in
         emit conn_commit ;;
         if (0 <? rowcount)%Z then ret (true, conn')
         else
           match employee_id, employee_name with
           | Some i, _ =>
               emit (st_warning (lit "No employee found with ID '" ++ str_of_int i ++ lit "'.")) ;;
               ret (false, conn')
           | None, Some n =>
               emit (st_warning (lit "No employee found with Name '" ++ n ++ lit "'.")) ;;
               ret (false, conn')
           | None, None => ret (false, conn')
           end)
        (fun e =>
           emit (st_error (lit "Error deleting employee: " ++ e)) ;;
           ret (false, conn))
  end.

(** The tuple [employee_data] that [add_employee] binds to the eight
    placeholders. *)
Record employee_data := {
  name : str;
  salary : cell;
  age : cell;
  gender : cell;
  designation : cell;
  working_hours : cell;
  lunch_bill : cell;
  bonus : cell
}.

Definition insert_sql : str :=
  lit " INSERT INTO EMPLOYEE(NAME, SALARY, AGE, GENDER, DESIGNATION, WORKING_HOURS, MONTHLY_LUNCH_BILL, BONUS)"
  ++ ["010"%char]
  ++ lit "              VALUES(?, ?, ?, ?, ?, ?, ?, ?) ".

Definition inserted (rowid : Z) (d : employee_data) : employee :=
  {| ID := rowid; NAME := name d;
     attributes := [salary d; age d; gender d; designation d; working_hours d;
                    lunch_bill d; bonus d] |}.

(** [cur.execute(sql, employee_data)] for the INSERT: the row is put
    after the others, under the [rowid] the engine assigns to it. *)
Definition execute_insert (conn : connection) (rowid : Z) (d : employee_data)
  : io connection :=
  call (cur_execute insert_sql
          [name d; str_cell (salary d); str_cell (age d); str_cell (gender d);
           str_cell (designation d); str_cell (working_hours d);
           str_cell (lunch_bill d); str_cell (bonus d)])
    match refuses conn with
    | Some d' => Raise (sqlite3_Error d')
    | None => Return {| EMPLOYEE := EMPLOYEE conn ++ [inserted rowid d]; refuses := None |}
    end.

Definition add_employee (conn : connection) (rowid : Z) (d : employee_data)
  : io (bool * connection) :=
  try_except_sqlite3
    (conn' <- execute_insert conn rowid d ;;
     emit conn_commit ;;
     ret (true, conn'))
    (fun e =>
       emit (st_error (lit "Error adding employee: " ++ e)) ;;
       ret (false, conn)).

(** [cur.execute(sql, param)] then [cur.fetchall()] for a SELECT: the
    rows kept, in the order of the table. *)
Definition execute_select (conn : connection) (sql : str) (params : list str)
    (keep : employee -> bool) : io (list employee) :=
  call (cur_execute sql params)
    match refuses conn with
    | Some d => Raise (sqlite3_Error d)
    | None => Return tt
    end ;;
  call cur_fetchall (Return (filter keep (EMPLOYEE conn))).

Definition get_all_employees (conn : connection) : io (list employee) :=
  try_except_sqlite3
    (execute_select conn (lit "SELECT * FROM EMPLOYEE") [] (fun _ => true))
    (fun e =>
       emit (st_error (lit "Error retrieving data: " ++ e)) ;;
       ret []).

Definition search_employee (conn : connection)
    (employee_id : option Z) (employee_name : option str)
  : io (list employee) :=
  let target :=
    match employee_id, employee_name with
    | Some i, _ => Some (lit "SELECT * FROM EMPLOYEE WHERE ID = ?", by_id i)
    | None, Some n => Some (lit "SELECT * FROM EMPLOYEE WHERE NAME = ?", by_name n)
    | None, None => None
    end in
  match target with
  | None =>
      emit (st_error (lit "Please provide either an Employee ID or a Name to search.")) ;;
      ret []
  | Some (sql, param) =>
      try_except_sqlite3
        (execute_select conn sql [str_of_parameter param] (selected param))
        (fun e =>
           emit (st_error (lit "Error searching employee: " ++ e)) ;;
           ret [])
  end.

End Crud.
End Crud.

Section Executor.

Context {py : Python}.

(** What sqlite3 answers to each call of [execute_sql_query], for a
    database path and a statement. *)
Record engine := {
  connecting : str -> outcome unit;
  executing : str -> str -> outcome unit;
  fetching : str -> str -> outcome (list (list cell));
  committing : str -> str -> outcome unit
}.

(** The value [execute_sql_query] returns: the fetched list or a text. *)
Inductive fetched :=
| Rows (rows : list (list cell))
| ErrorText (text : str).

Definition execute_sql_query (eng : engine) (sql db : str) : io fetched :=
  call (sqlite3_connect db) (connecting eng db) ;;
  try_finally
    (try_except_sqlite3
       (call (cur_execute sql []) (executing eng db sql) ;;
        rows <- call cur_fetchall (fetching eng db sql) ;;
        call conn_commit (committing eng db sql) ;;
        ret (Rows rows))
       (fun e => ret (ErrorText (lit "Error executing SQL query: " ++ e))))
    (emit conn_close).

End Executor.

(** ** The prompt and the model client *)

Definition nl : ascii := "010"%char.

Fixpoint join (sep : str) (parts : list str) : str :=
  match parts with
  | [] => []
  | [p] => p
  | p :: rest => p ++ sep ++ join sep rest
  end.

Definition prompt_text : str :=
  join [nl] (map lit [
    "";
    "    You are an expert in converting English questions to SQL query!";
    "    The SQL database has the name EMPLOYEE and has the following columns -";
    "    ID, NAME, SALARY, AGE, GENDER, DESIGNATION, WORKING_HOURS, MONTHLY_LUNCH_BILL, BONUS";
    "    ";
    "";
    "For example,";
    "Example 1 - Retrieve all employees";
    "    the SQL command will be something like this SELECT * FROM EMPLOYEE;";
    "    ";
    "Example 2 - Retrieve employees with a specific salary range";
    "    the SQL command will be something like this SELECT * FROM EMPLOYEE";
    "    WHERE SALARY BETWEEN 50000 AND 70000;";
    "    ";
    "Example 3 - What is the average salary of employees?";
    "    the SQL command will be something like this SELECT AVG(SALARY) FROM EMPLOYEE;";
    "    ";
    "Example 4 - How many male employees are there?";
    "    the SQL command will be something like this SELECT COUNT(*) FROM EMPLOYEE WHERE GENDER = 'Male';";
    "    ";
    "Example 5 - List employees older than 30 with a bonus greater than 0.";
    "    the SQL command will be something like this SELECT * FROM EMPLOYEE WHERE AGE > 30 AND BONUS > 0;";
    ""
  ]%string).

Section ModelClient.

Context {py : Python}.

(** The completion endpoint as the process sees it: what the [n]-th
    pass through the [try] body (the call and the reading of
    [response.choices[0].message.content]) yields. *)
Definition endpoint := nat -> outcome str.

Definition messages_of (question system_prompt : str) : list (str * str) :=
  [(lit "system", system_prompt); (lit "user", question)].

Definition attempt_events (messages : list (str * str)) (retries max_retries : Z)
  : list event :=
  [st_spinner (lit "Asking AI... (Attempt " ++ str_of_int (retries + 1) ++ lit "/"
               ++ str_of_int max_retries ++ lit ")");
   litellm_completion (lit "openrouter/moonshotai/kimi-k2:free") messages].

(** The [while retries < max_retries] loop; [n] counts the calls made.
    [fuel] bounds the iterations of the model; [None] is fuel run out.
    [time.sleep(delay)] is logged as a call that returns, which it does
    for the delays [time_sleep_accepts] holds of (all those of the
    default policy); for another delay Python raises inside the
    handler and the exception leaves the function. *)
Fixpoint retry_loop (ep : endpoint) (messages : list (str * str)) (max_retries : Z)
    (fuel : nat) (retries delay : Z) (n : nat) : option (io str) :=
  if (retries <? max_retries)%Z then
    match fuel with
    | O => None
    | S fuel' =>
        let attempt := attempt_events messages retries max_retries in
        match ep n with
        | Return content => Some (Return content, attempt)
        | Raise (RateLimitError e) =>
            let retries := (retries + 1)%Z in
            if (retries <? max_retries)%Z then
              match retry_loop ep messages max_retries fuel' retries (delay * 2)%Z (S n) with
              | Some (r, t) =>
                  Some (r, attempt
                           ++ [st_warning (lit "Rate limit hit. Retrying in " ++ str_of_int delay
                                           ++ lit " seconds... (Attempt " ++ str_of_int retries
                                           ++ lit "/" ++ str_of_int max_retries ++ lit ")");
                               time_sleep delay]
                           ++ t)
              | None => None
              end
            else
              Some (Return (lit "Error: Could not get response from LLM after multiple retries. Details: " ++ e),
                    attempt ++ [st_error (lit "Max retries reached. Error getting response from LLM: " ++ e)])
        | Raise e =>
            Some (Return (lit "Error: Could not get response from LLM. Details: " ++ str_of_exn e),
                  attempt ++ [st_error (lit "Error getting response from LLM: " ++ str_of_exn e)])
        end
    end
  else Some (Return (lit "Error: Failed to get LLM response."), []).

Definition get_llm_response (ep : endpoint) (question system_prompt : str)
    (max_retries initial_delay : Z) : option (io str) :=
  retry_loop ep (messages_of question system_prompt) max_retries
    (Z.to_nat max_retries) 0 initial_delay 0.

End ModelClient.

(** ** The "Ask AI" handler *)

Section AskAI.

Context {py : Python}.

Definition sql_fence : pattern :=
  literal "```sql"
  ++ [MaxRepeat Whitespace; GroupOpen; MinRepeat AnyChar; GroupClose; MaxRepeat Whitespace]
  ++ literal "```".

(** [re.DOTALL | re.IGNORECASE] *)
Definition search_flags : flags := {| IGNORECASE := true; DOTALL := true |}.

(** Lines 291-296: the candidate statement. *)
Definition extract_sql (response_from_llm : str) : str :=
  match search search_flags sql_fence response_from_llm with
  | Some group1 => strip group1
  | None => strip response_from_llm
  end.

(** Lines 300-303: the test on the first keyword. *)
Definition statement_keyword (sql_query_to_execute : str) : bool :=
  startswith (lit "select") (lower sql_query_to_execute)
  || startswith (lit "insert") (lower sql_query_to_execute)
  || startswith (lit "update") (lower sql_query_to_execute)
  || startswith (lit "delete") (lower sql_query_to_execute).

Definition canonical_columns : list str :=
  map lit ["ID"; "NAME"; "SALARY"; "AGE"; "GENDER"; "DESIGNATION"; "WORKING_HOURS";
           "MONTHLY_LUNCH_BILL"; "BONUS"]%string.

Definition inferred_columns (row : list cell) : list str :=
  map (fun i => lit "Column_" ++ str_of_nat (i + 1)) (seq 0 (List.length row)).

Definition widest (rows : list (list cell)) : nat :=
  fold_right Nat.max 0 (map (@List.length cell) rows).

(** [pd.DataFrame(rows, columns=cols)] on a list of tuples: pandas lays
    the tuples out on the width of the widest and raises when that is
    not the number of column names. *)
Definition pd_DataFrame (rows : list (list cell)) (cols : list str) : io DataFrame :=
  if widest rows =? List.length cols
  then ret {| columns := cols; values := rows |}
  else raise (ValueError (str_of_nat (List.length cols) ++ lit " columns passed, passed data had "
                          ++ str_of_nat (widest rows) ++ lit " columns")).

(** Lines 311-333: the branch that shows fetched rows. *)
Definition show_answer (sql_query_to_execute : str) (data : list (list cell)) : io unit :=
  emit (st_subheader (lit "AI Answer:")) ;;
  match data with
  | [] => emit (st_info (lit "No data found for your AI query."))
  | [[x]] => emit (st_success (lit "The answer is: **" ++ str_cell x ++ lit "**"))
  | row0 :: _ =>
      df_ai_results <-
        (if startswith (lit "select * from employee") (lower sql_query_to_execute)
         then pd_DataFrame data canonical_columns
         else pd_DataFrame data (inferred_columns row0)) ;;
      emit (st_dataframe df_ai_results)
  end.

(** The text line 298 looks for, and the warning of line 304. *)
Definition llm_error_marker : str := lit "Error: Could not get response from LLM".

Definition refine_warning : str :=
  lit "The AI did not return a valid SQL query (must start with SELECT, INSERT, UPDATE, or DELETE). Please refine your question.".

(** Lines 291-333: what the handler does with the model client's text.
    An [ErrorText] always carries the marker line 308 looks for. *)
Definition handle_response (eng : engine) (response_from_llm : str) : io unit :=
  let sql_query_to_execute := extract_sql response_from_llm in
  if contains llm_error_marker sql_query_to_execute then
    emit (st_error sql_query_to_execute)
  else if negb (statement_keyword sql_query_to_execute) then
    emit (st_warning refine_warning)
  else
    data <- execute_sql_query eng sql_query_to_execute (lit "company.db") ;;
    match data with
    | ErrorText text => emit (st_error text)
    | Rows rows =>
        if contains (lit "Error executing SQL query") (str_rows rows)
        then emit (st_error (str_rows rows))
        else show_answer sql_query_to_execute rows
    end.

Definition truthy (s : str) : bool :=
  match s with [] => false | _ :: _ => true end.

(** Lines 286-335. *)
Definition ask_ai (ep : endpoint) (eng : engine) (ask_ai_button : bool) (ai_question : str)
  : option (io unit) :=
  if ask_ai_button && truthy ai_question then
    match get_llm_response ep ai_question prompt_text 10 2 with
    | Some answer =>
        Some (emit (st_info (lit "Getting answer from AI...")) ;;
              response_from_llm <- answer ;;
              handle_response eng response_from_llm)
    | None => None
    end
  else if ask_ai_button && negb (truthy ai_question) then
    Some (emit (st_warning (lit "Please enter a question for the AI.")))
  else Some (ret tt).

End AskAI.

(** ** A Python whose fetched values are all integers

    [str] of an [int] is its decimal writing; [str] of a tuple and of a
    list separate the items with a comma and a space, and a tuple of one
    item ends with a comma. *)

Definition str_int_tuple (row : list Z) : str :=
  match row with
  | [x] => lit "(" ++ str_of_int x ++ lit ",)"
  | _ => lit "(" ++ join (lit ", ") (map str_of_int row) ++ lit ")"
  end.

Definition str_int_rows (rows : list (list Z)) : str :=
  lit "[" ++ join (lit ", ") (map str_int_tuple rows) ++ lit "]".

Definition int_cells : Python :=
  {| cell := Z; str_cell := str_of_int; str_rows := str_int_rows |}.

(** ** Observations on a log and on a text *)

Section Observations.

Context {py : Python}.

(** The number of calls to the completion endpoint. *)
Fixpoint count_calls (t : list event) : nat :=
  match t with
  | litellm_completion _ _ :: t' => S (count_calls t')
  | _ :: t' => count_calls t'
  | [] => 0
  end.

(** The delays slept, in order. *)
Fixpoint sleeps (t : list event) : list Z :=
  match t with
  | time_sleep d :: t' => d :: sleeps t'
  | _ :: t' => sleeps t'
  | [] => []
  end.

(** The statements handed to [cur.execute], in order. *)
Fixpoint executed (t : list event) : list str :=
  match t with
  | cur_execute sql _ :: t' => sql :: executed t'
  | _ :: t' => executed t'
  | [] => []
  end.

(** Whether anything was asked of sqlite3. *)
Definition touches_store (e : event) : bool :=
  match e with
  | sqlite3_connect _ | cur_execute _ _ | cur_fetchall | conn_commit | conn_close => true
  | _ => false
  end.

End Observations.

Definition is_rate_limit (e : exn) : bool :=
  match e with RateLimitError _ => true | _ => false end.

(** The pass through the [try] body ended in a [RateLimitError]. *)
Definition rate_limited (o : outcome str) : Prop :=
  exists e, o = Raise (RateLimitError e).

(** [delay], [2 * delay], [4 * delay], ...: [k] delays. *)
Definition backoff (delay : Z) (k : nat) : list Z :=
  map (fun i => (delay * 2 ^ Z.of_nat i)%Z) (seq 0 k).

Definition fence : str := lit "```".

(** [p] starts at no position of [s] before the [n]-th. *)
Definition absent_before (p : str) (n : nat) (s : str) : Prop :=
  forall i, i < n -> startswith p (skipn i s) = false.

(** An opening marker, in any letter case, starts [s]. *)
Definition opens (s : str) : bool := startswith (lit "```sql") (lower s).

(** Whitespace, then a closing marker, start [s]. *)
Definition closes (s : str) : bool := startswith fence (lstrip s).

(** The shortest prefix of [s] after which [closes] holds. *)
Fixpoint until_close (s : str) : option str :=
  if closes s then Some []
  else
    match s with
    | c :: s' => option_map (cons c) (until_close s')
    | [] => None
    end.

(** A text with a block: an opening marker with the tag, and a closing
    marker somewhere after it. *)
Definition has_sql_block (text : str) : Prop :=
  exists pre tag inner post,
    text = pre ++ fence ++ tag ++ inner ++ fence ++ post /\ lower tag = lit "sql".

(** The pieces of [sql_fence] after the opening marker. *)
Definition tail : pattern := MaxRepeat Whitespace :: literal "```".

Definition body : pattern := MinRepeat AnyChar :: GroupClose :: tail.

Definition after_tag : pattern := MaxRepeat Whitespace :: GroupOpen :: body.

Definition lowercase (c : ascii) : Prop := lower_char c = c.

(** ** Scenarios *)

(** An endpoint that answers every call with the same text, and one
    that fails every call with the same exception. *)
Definition answering (content : str) : endpoint := fun _ => Return content.

Definition failing (e : exn) : endpoint := fun _ => Raise e.

(** An endpoint that is rate-limited [k] times and then behaves as [ep]. *)
Definition throttled (k : nat) (detail : str) (ep : endpoint) : endpoint :=
  fun n => if n <? k then Raise (RateLimitError detail) else ep (n - k).

(** A store that opens and answers every statement with the same rows,
    and one whose file cannot be opened. *)
Definition store_of {py : Python} (rows : list (list cell)) : engine :=
  {| connecting := fun _ => Return tt;
     executing := fun _ _ => Return tt;
     fetching := fun _ _ => Return rows;
     committing := fun _ _ => Return tt |}.

Definition unopenable {py : Python} : engine :=
  {| connecting := fun _ => Raise (sqlite3_Error (lit "unable to open database file"));
     executing := fun _ _ => Return tt;
     fetching := fun _ _ => Return [];
     committing := fun _ _ => Return tt |}.

(** The same with integer values. *)
Definition int_store (rows : list (list Z)) : @engine int_cells :=
  @store_of int_cells rows.

(** A table of one employee, on a connection that accepts statements. *)
Definition one_employee : @Crud.connection int_cells :=
  @Crud.Build_connection int_cells
    [@Crud.Build_employee int_cells 1 (lit "Sara") [52000; 34; 40; 120; 0]%Z]
    None.

(** ** The connection of the page and the forms *)

Section Forms.

Context {py : Python}.

(** Lines 16-24. The connection is the path it was opened on. *)
Definition create_connection (eng : engine) (db_file : str) : io (option str) :=
  try_except_sqlite3
    (call (sqlite3_connect db_file) (connecting eng db_file) ;;
     ret (Some db_file))
    (fun e =>
       emit (st_error (lit "Error connecting to database: " ++ e)) ;;
       ret None).

(** How the values of the widgets and of the key column are stored:
    an [int] and a [str] as fetched values. *)
Variable int_cell : Z -> cell.
Variable text_cell : str -> cell.

(** The tuple sqlite3 gives back for a row. *)
Definition as_tuple (e : Crud.employee) : list cell :=
  int_cell (Crud.ID e) :: text_cell (Crud.NAME e) :: Crud.attributes e.

(** Lines 209-218: the "Add Employee" button. *)
Definition submit_new_employee (conn : Crud.connection) (rowid : Z)
    (submit_button : bool) (name : str) (salary age : cell) (gender designation : str)
    (working_hours lunch_bill bonus : cell) : io Crud.connection :=
  if submit_button then
    if negb (truthy name) || negb (truthy designation) then
      emit (st_warning (lit "Please fill out the required fields: Name and Designation.")) ;;
      ret conn
    else
      r <- Crud.add_employee conn rowid
             {| Crud.name := name; Crud.salary := salary; Crud.age := age;
                Crud.gender := text_cell gender; Crud.designation := text_cell designation;
                Crud.working_hours := working_hours; Crud.lunch_bill := lunch_bill;
                Crud.bonus := bonus |} ;;
      if fst r then
        emit (st_success (lit "Employee '" ++ name ++ lit "' added successfully!")) ;;
        ret (snd r)
      else
        emit (st_error (lit "Failed to add employee. Check the console for details.")) ;;
        ret (snd r)
  else ret conn.

(** Truth value of an [int] or [None], of a [str] or [None]. *)
Definition truthy_id (i : option Z) : bool :=
  match i with Some z => negb (z =? 0)%Z | None => false end.

Definition truthy_name (n : option str) : bool :=
  match n with Some s => truthy s | None => false end.

(** Lines 226-232 and 252-258: the radio button decides which of the
    two widgets exists; the other value stays [None]. *)
Definition chosen_id (by_option : str) (id_input : Z) : option Z :=
  if str_eqb by_option (lit "ID") then Some id_input else None.

Definition chosen_name (by_option : str) (name_input : str) : option str :=
  if str_eqb by_option (lit "ID") then None else Some name_input.

(** Lines 236-244: the "Remove Employee" button. *)
Definition remove_employee (conn : Crud.connection) (delete_button : bool)
    (delete_by_option : str) (id_input : Z) (name_input : str) : io Crud.connection :=
  let employee_id_to_delete := chosen_id delete_by_option id_input in
  let employee_name_to_delete := chosen_name delete_by_option name_input in
  if delete_button then
    if str_eqb delete_by_option (lit "ID") && truthy_id employee_id_to_delete then
      r <- Crud.delete_employee conn employee_id_to_delete None ;;
      if fst r then
        emit (st_success (lit "Employee with ID '"
                          ++ match employee_id_to_delete with
                             | Some i => str_of_int i
                             | None => lit "None"
                             end
                          ++ lit "' removed successfully!")) ;;
        ret (snd r)
      else ret (snd r)
    else if str_eqb delete_by_option (lit "Name") && truthy_name employee_name_to_delete then
      r <- Crud.delete_employee conn None employee_name_to_delete ;;
      if fst r then
        emit (st_success (lit "Employee with Name '"
                          ++ match employee_name_to_delete with
                             | Some n => n
                             | None => lit "None"
                             end
                          ++ lit "' removed successfully!")) ;;
        ret (snd r)
      else ret (snd r)
    else
      emit (st_warning (lit "Please provide a value for deletion.")) ;;
      ret conn
  else ret conn.

(** Lines 271-278 and 342-348: rows shown under the nine names. *)
Definition show_rows (rows : list Crud.employee) : io unit :=
  df <- pd_DataFrame (map as_tuple rows) canonical_columns ;;
  emit (st_dataframe df).

(** Lines 262-278: the "Search Employee" button. *)
Definition search_pressed (conn : Crud.connection) (search_button : bool)
    (search_by_option : str) (id_input : Z) (name_input : str) : io unit :=
  let employee_id_to_search := chosen_id search_by_option id_input in
  let employee_name_to_search := chosen_name search_by_option name_input in
  if search_button then
    search_results <-
      (if str_eqb search_by_option (lit "ID") && truthy_id employee_id_to_search then
         Crud.search_employee conn employee_id_to_search None
       else if str_eqb search_by_option (lit "Name") && truthy_name employee_name_to_search then
         Crud.search_employee conn None employee_name_to_search
       else
         emit (st_warning (lit "Please provide a value for search.")) ;;
         ret []) ;;
    match search_results with
    | _ :: _ =>
        emit (st_subheader (lit "Search Results:")) ;;
        show_rows search_results
    | [] => emit (st_info (lit "No employee found matching your search criteria."))
    end
  else ret tt.

(** Lines 338-348: the roster at the bottom of the page. *)
Definition show_roster (conn : Crud.connection) : io unit :=
  emit (st_subheader (lit "Current Employee Roster")) ;;
  employee_rows <- Crud.get_all_employees conn ;;
  match employee_rows with
  | _ :: _ => show_rows employee_rows
  | [] => emit (st_info (lit "The employee table is currently empty."))
  end.

End Forms.

(** ** More observations *)

Section MoreObservations.

Context {py : Python}.

Fixpoint count_connects (t : list event) : nat :=
  match t with
  | sqlite3_connect _ :: t' => S (count_connects t')
  | _ :: t' => count_connects t'
  | [] => 0
  end.

Fixpoint count_closes (t : list event) : nat :=
  match t with
  | conn_close :: t' => S (count_closes t')
  | _ :: t' => count_closes t'
  | [] => 0
  end.

(** A call to Streamlit: something shown on the page. *)
Definition is_notice (e : event) : bool :=
  match e with
  | st_info _ | st_warning _ | st_error _ | st_success _ | st_subheader _
  | st_spinner _ | st_dataframe _ => true
  | _ => false
  end.

(** Every row carries the seven values after ID and NAME. *)
Definition nine_wide (table : list Crud.employee) : Prop :=
  Forall (fun e => List.length (Crud.attributes e) = 7) table.

End MoreObservations.

Definition total (delays : list Z) : Z := fold_right Z.add 0%Z delays.

(** The calls to the endpoint and the pauses of the calling flow, in
    the order in which they happen. *)
Inductive step :=
| called
| slept (secs : Z).

Fixpoint pace {py : Python} (t : list event) : list step :=
  match t with
  | litellm_completion _ _ :: t' => called :: pace t'
  | time_sleep d :: t' => slept d :: pace t'
  | _ :: t' => pace t'
  | [] => []
  end.

(** A call, then for each delay a pause and another call. *)
Fixpoint calls_with_pauses (delays : list Z) : list step :=
  match delays with
  | [] => [called]
  | d :: ds => called :: slept d :: calls_with_pauses ds
  end.

(** The whole numbers of seconds [time.sleep] takes: CPython raises
    ValueError ("sleep length must be non-negative") below zero and
    OverflowError when the nanoseconds do not fit a signed 64-bit
    integer. *)
Definition time_sleep_accepts (secs : Z) : bool :=
  (0 <=? secs)%Z && (secs * 10 ^ 9 <? 2 ^ 63)%Z.

(** ** A Python whose fetched values are None, integers and texts

    [repr] of a text: in single quotes, or in double quotes when it
    holds a single quote and no double quote; the quote and the
    backslash are escaped, tab, newline and return are written with
    their letters, other characters that cannot be printed as two
    hexadecimal digits. *)

Inductive value :=
| v_None
| v_int (z : Z)
| v_str (s : str).

Definition hex_digit (n : nat) : ascii :=
  nth n (lit "0123456789abcdef") "0"%char.

Definition repr_char (quote c : ascii) : str :=
  let n := code c in
  if Ascii.eqb c quote || Ascii.eqb c "092"%char then ["092"%char; c]
  else if n =? 9 then lit "\t"
  else if n =? 10 then lit "\n"
  else if n =? 13 then lit "\r"
  else if (n <? 32) || (n =? 127) || ((128 <=? n) && (n <=? 160)) || (n =? 173)
       then lit "\x" ++ [hex_digit (n / 16); hex_digit (n mod 16)]
  else [c].

Definition repr_str (s : str) : str :=
  let quote :=
    if existsb (Ascii.eqb "'"%char) s && negb (existsb (Ascii.eqb "034"%char) s)
    then "034"%char else "'"%char in
  [quote] ++ flat_map (repr_char quote) s ++ [quote].

Definition str_value (v : value) : str :=
  match v with
  | v_None => lit "None"
  | v_int z => str_of_int z
  | v_str s => s
  end.

Definition repr_value (v : value) : str :=
  match v with
  | v_str s => repr_str s
  | _ => str_value v
  end.

Definition repr_tuple (row : list value) : str :=
  match row with
  | [x] => lit "(" ++ repr_value x ++ lit ",)"
  | _ => lit "(" ++ join (lit ", ") (map repr_value row) ++ lit ")"
  end.

Definition repr_rows (rows : list (list value)) : str :=
  lit "[" ++ join (lit ", ") (map repr_tuple rows) ++ lit "]".

Definition py_values : Python :=
  {| cell := value; str_cell := str_value; str_rows := repr_rows |}.

(** ** More scenarios *)

Definition value_store (rows : list (list value)) : @engine py_values :=
  @store_of py_values rows.

Definition sara : @Crud.employee py_values :=
  @Crud.Build_employee py_values 1 (lit "Sara")
    [v_int 52000; v_int 34; v_str (lit "Female"); v_str (lit "Engineer");
     v_int 40; v_int 120; v_int 0].

Definition omid : @Crud.employee py_values :=
  @Crud.Build_employee py_values 2 (lit "Omid")
    [v_int 48000; v_int 29; v_str (lit "Male"); v_str (lit "Analyst");
     v_int 38; v_int 90; v_int 500].

Definition staff : @Crud.connection py_values :=
  @Crud.Build_connection py_values [sara; omid] None.

Definition locked : @Crud.connection py_values :=
  @Crud.Build_connection py_values [sara; omid] (Some (lit "database is locked")).

Definition newcomer : @Crud.employee_data py_values :=
  @Crud.Build_employee_data py_values (lit "Neda") (v_int 50000) (v_int 31)
    (v_str (lit "Female")) (v_str (lit "Designer")) (v_int 40) (v_int 100) (v_int 0).

(** A store that gives the same answer to every call of each kind. *)
Definition answering_store {py : Python} (on_connect on_execute : outcome unit)
    (on_fetch : outcome (list (list cell))) (on_commit : outcome unit) : engine :=
  {| connecting := fun _ => on_connect;
     executing := fun _ _ => on_execute;
     fetching := fun _ _ => on_fetch;
     committing := fun _ _ => on_commit |}.

Definition value_answers (on_connect on_execute : outcome unit)
    (on_fetch : outcome (list (list value))) (on_commit : outcome unit)
  : @engine py_values :=
  @answering_store py_values on_connect on_execute on_fetch on_commit.



(** * Lemmas

    Facts about texts, the pattern of the handler and the retry loop. *)

(** ** Texts *)

#[local] Arguments Ascii.eqb : simpl never.
#[local] Arguments is_space : simpl never.
#[local] Arguments lower_char : simpl never.

Section TextFacts.

Lemma startswith_app (p r : str) : startswith p (p ++ r) = true.
Proof.
  induction p as [|a p IH]; simpl; [reflexivity|].
  now rewrite Ascii.eqb_refl.
Qed.

Lemma startswith_split (p s : str) :
  startswith p s = true -> exists r, s = p ++ r.
Proof.
  revert s; induction p as [|a p IH]; intros s H.
  - now exists s.
  - destruct s as [|b s]; simpl in H; [discriminate|].
    apply andb_true_iff in H as [Hab Hs].
    apply Ascii.eqb_eq in Hab; subst b.
    destruct (IH _ Hs) as [r ->]. now exists r.
Qed.

Lemma space_not_backtick (c : ascii) :
  is_space c = true -> Ascii.eqb "`" c = false.
Proof.
  destruct c as [[] [] [] [] [] [] [] []]; vm_compute; congruence.
Qed.

Lemma lower_backtick (c : ascii) :
  Ascii.eqb "`" (lower_char c) = Ascii.eqb "`" c.
Proof.
  destruct c as [[] [] [] [] [] [] [] []]; reflexivity.
Qed.

Lemma startswith_fence_lower (s : str) :
  startswith fence (lower s) = startswith fence s.
Proof.
  destruct s as [|a [|b [|c s]]]; simpl; rewrite ?lower_backtick; reflexivity.
Qed.

Lemma lstrip_suffix (s : str) : exists w, s = w ++ lstrip s.
Proof.
  induction s as [|c s [w IH]]; [now exists []|].
  simpl. destruct (is_space c).
  - exists (c :: w). simpl. now f_equal.
  - now exists [].
Qed.

Lemma lstrip_head (s : str) :
  lstrip s = [] \/ exists c r, lstrip s = c :: r /\ is_space c = false.
Proof.
  induction s as [|c s IH]; [now left|].
  simpl. destruct (is_space c) eqn:E; [exact IH|].
  right. now exists c, s.
Qed.

Lemma lstrip_fixed (c : ascii) (s : str) :
  is_space c = false -> lstrip (c :: s) = c :: s.
Proof. intros E. simpl. now rewrite E. Qed.

Lemma lstrip_app_fence (x r : str) :
  lstrip (x ++ fence ++ r) = lstrip x ++ fence ++ r.
Proof.
  induction x as [|c x IH]; [reflexivity|].
  simpl. destruct (is_space c); [exact IH | reflexivity].
Qed.

Lemma lstrip_all_space (x r : str) :
  forallb is_space x = true -> lstrip (x ++ r) = lstrip r.
Proof.
  induction x as [|c x IH]; intros H; [reflexivity|].
  simpl in *. apply andb_true_iff in H as [Hc Hx]. rewrite Hc. auto.
Qed.

Lemma lstrip_is_skipn (x r : str) :
  forallb is_space x = false ->
  exists k, k < List.length x /\ lstrip (x ++ r) = skipn k (x ++ r).
Proof.
  induction x as [|c x IH]; intros H; [discriminate|].
  simpl in H. simpl lstrip. destruct (is_space c) eqn:E.
  - simpl in H. destruct (IH H) as (k & Hk & Heq).
    exists (S k). split; [simpl; lia | exact Heq].
  - exists 0. split; [simpl; lia | reflexivity].
Qed.

Lemma rstrip_cons (c : ascii) (y : str) :
  rstrip (c :: y) = if forallb is_space (c :: y) then [] else c :: rstrip y.
Proof. reflexivity. Qed.

Lemma forallb_rstrip (y : str) :
  forallb is_space (rstrip y) = forallb is_space y.
Proof.
  induction y as [|c y IH]; [reflexivity|].
  rewrite rstrip_cons. destruct (forallb is_space (c :: y)) eqn:E; [reflexivity|].
  simpl in *. now rewrite IH.
Qed.

Lemma rstrip_idempotent (y : str) : rstrip (rstrip y) = rstrip y.
Proof.
  induction y as [|c y IH]; [reflexivity|].
  rewrite (rstrip_cons c y). destruct (forallb is_space (c :: y)) eqn:E; [reflexivity|].
  rewrite rstrip_cons.
  assert (forallb is_space (c :: rstrip y) = false) as ->.
  { simpl in *. now rewrite forallb_rstrip. }
  now rewrite IH.
Qed.

Lemma strip_idempotent (s : str) : strip (strip s) = strip s.
Proof.
  unfold strip.
  assert (lstrip (rstrip (lstrip s)) = rstrip (lstrip s)) as ->.
  { destruct (lstrip_head s) as [-> | (c & r & -> & Hc)]; [reflexivity|].
    rewrite rstrip_cons. simpl forallb. rewrite Hc. simpl. now rewrite Hc. }
  apply rstrip_idempotent.
Qed.

Lemma absent_before_tail (p : str) (n : nat) (c : ascii) (s : str) :
  absent_before p (S n) (c :: s) -> absent_before p n s.
Proof. intros H i Hi. apply (H (S i)). lia. Qed.

Lemma absent_before_lstrip (p x r : str) :
  absent_before p (List.length x) (x ++ r) ->
  absent_before p (List.length (lstrip x)) (lstrip x ++ r).
Proof.
  induction x as [|c x IH]; intros H; [exact H|].
  simpl lstrip. destruct (is_space c); [|exact H].
  apply IH. exact (@absent_before_tail _ _ _ _ H).
Qed.

Lemma rstrip_all_space (x : str) : forallb is_space x = true -> rstrip x = [].
Proof. destruct x as [|c x]; [reflexivity|]. rewrite rstrip_cons. now intros ->. Qed.

(** [rstrip] keeps a prefix that ends in something other than
    whitespace. *)
Lemma rstrip_keeps_prefix (p r : str) :
  p <> [] -> is_space (last p " "%char) = false ->
  exists r', rstrip (p ++ r) = p ++ r'.
Proof.
  induction p as [|c p IH]; [congruence|]. intros _ Hl.
  destruct p as [|d p].
  - cbn [last] in Hl. exists (rstrip r). cbn [app]. rewrite rstrip_cons.
    cbn [forallb]. now rewrite Hl.
  - destruct IH as [r' Hr']; [discriminate | exact Hl |].
    exists r'. change ((c :: d :: p) ++ r) with (c :: (d :: p) ++ r).
    rewrite rstrip_cons, Hr'.
    destruct (forallb is_space (c :: (d :: p) ++ r)) eqn:E; [|reflexivity].
    cbn [forallb] in E. apply andb_true_iff in E as [_ E].
    apply rstrip_all_space in E. rewrite E in Hr'. discriminate.
Qed.

Lemma contains_prefix (p r : str) : contains p (p ++ r) = true.
Proof. destruct (p ++ r) eqn:E; cbn [contains]; rewrite <- E, startswith_app; reflexivity. Qed.

End TextFacts.

(** ** The pattern of the handler *)

Section FencePattern.

Lemma run_One a p c s r g :
  run search_flags (One a :: p) (c :: s) r g =
  if atom_matches search_flags a c then run search_flags p s r (push r c g) else None.
Proof. reflexivity. Qed.

Lemma run_MaxRepeat_cons a p c s r g :
  run search_flags (MaxRepeat a :: p) (c :: s) r g =
  if atom_matches search_flags a c then
    match run search_flags (MaxRepeat a :: p) s r (push r c g) with
    | Some x => Some x
    | None => run search_flags p (c :: s) r g
    end
  else run search_flags p (c :: s) r g.
Proof. reflexivity. Qed.

Lemma run_MaxRepeat_nil a p r g :
  run search_flags (MaxRepeat a :: p) [] r g = run search_flags p [] r g.
Proof. reflexivity. Qed.

Lemma run_MinRepeat a p s r g :
  run search_flags (MinRepeat a :: p) s r g =
  match run search_flags p s r g with
  | Some x => Some x
  | None =>
      match s with
      | c :: s' =>
          if atom_matches search_flags a c then run search_flags (MinRepeat a :: p) s' r (push r c g)
          else None
      | [] => None
      end
  end.
Proof. destruct s; reflexivity. Qed.

(** A run of literals, outside the group: a prefix test on the
    lowered text. *)
Lemma run_literals (l : str) p s g :
  Forall lowercase l ->
  run search_flags (map (fun c => One (Literal c)) l ++ p) s false g =
  if startswith l (lower s) then run search_flags p (skipn (List.length l) s) false g else None.
Proof.
  intros Hl; revert s; induction Hl as [|a l Ha Hl IH]; intros s; [reflexivity|].
  destruct s as [|c s]; [reflexivity|].
  cbn [map app]. rewrite run_One. cbn [atom_matches search_flags IGNORECASE].
  rewrite Ha. cbn [lower map startswith List.length skipn push].
  rewrite (Ascii.eqb_sym a). destruct (Ascii.eqb (lower_char c) a); [apply IH | reflexivity].
Qed.

Lemma run_fence p s g :
  run search_flags (literal "```" ++ p) s false g =
  if startswith fence s then run search_flags p (skipn 3 s) false g else None.
Proof.
  unfold literal. rewrite run_literals.
  - now rewrite startswith_fence_lower.
  - repeat constructor.
Qed.

Lemma run_tail s g :
  run search_flags tail s false g = if closes s then Some g else None.
Proof.
  unfold tail, closes. induction s as [|c s IH].
  - reflexivity.
  - rewrite run_MaxRepeat_cons. cbn [atom_matches push lstrip].
    destruct (is_space c) eqn:E.
    + rewrite IH. destruct (startswith fence (lstrip s)); [reflexivity|].
      rewrite <- (app_nil_r (literal "```")), run_fence.
      cbn [fence lit list_ascii_of_string startswith]. 
      now rewrite (space_not_backtick _ E).
    + rewrite <- (app_nil_r (literal "```")), run_fence.
      now destruct (startswith fence (c :: s)).
Qed.

Lemma run_body s g :
  run search_flags body s true g = option_map (app g) (until_close s).
Proof.
  unfold body. revert g; induction s as [|c s IH]; intros g;
    rewrite run_MinRepeat;
    change (run search_flags (GroupClose :: tail) ?s true g) with (run search_flags tail s false g);
    rewrite run_tail; cbn [until_close].
  - destruct (closes []); cbn; now rewrite ?app_nil_r.
  - destruct (closes (c :: s)); [cbn; now rewrite app_nil_r|].
    cbn [atom_matches search_flags DOTALL orb push]. rewrite IH.
    destruct (until_close s); cbn; [now rewrite <- app_assoc | reflexivity].
Qed.

Lemma until_close_lstrip_none s :
  until_close (lstrip s) = None -> until_close s = None.
Proof.
  induction s as [|c s IH]; [trivial|].
  cbn [lstrip]. destruct (is_space c) eqn:E; [|trivial].
  intros H. cbn [until_close]. unfold closes at 1. cbn [lstrip]. rewrite E.
  fold (closes s).
  destruct (closes s) eqn:Ec.
  - exfalso. revert H. unfold closes in Ec.
    destruct (lstrip s) as [|d u] eqn:El; [discriminate|].
    cbn [until_close]. unfold closes at 1.
    destruct (lstrip_head s) as [Hn | (d' & u' & Hd & Hsp)]; [congruence|].
    rewrite El in Hd. injection Hd as <- <-.
    rewrite (@lstrip_fixed d u Hsp), Ec. discriminate.
  - now rewrite (IH H).
Qed.

Lemma run_after_tag s g :
  run search_flags after_tag s false g = until_close (lstrip s).
Proof.
  unfold after_tag. induction s as [|c s IH].
  - rewrite run_MaxRepeat_nil.
    change (run search_flags (GroupOpen :: body) [] false g) with (run search_flags body [] true []).
    rewrite run_body. cbn [lstrip]. now destruct (until_close []).
  - rewrite run_MaxRepeat_cons. cbn [atom_matches push lstrip].
    change (run search_flags (GroupOpen :: body) (c :: s) false g) with (run search_flags body (c :: s) true []).
    rewrite run_body.
    assert (Hid : forall o : option str, option_map (app []) o = o) by (now intros []).
    rewrite Hid.
    destruct (is_space c) eqn:E; [|reflexivity].
    rewrite IH. destruct (until_close (lstrip s)) eqn:Eu; [reflexivity|].
    apply until_close_lstrip_none. cbn [lstrip]. now rewrite E.
Qed.

Lemma sql_fence_eq : sql_fence = literal "```sql" ++ after_tag.
Proof. reflexivity. Qed.

(** The pattern at one position: an opening marker, then the shortest
    text up to whitespace and a closing marker. *)
Lemma run_sql_fence s :
  run search_flags sql_fence s false [] =
  if opens s then until_close (lstrip (skipn 6 s)) else None.
Proof.
  rewrite sql_fence_eq. unfold literal. rewrite run_literals.
  - fold (opens s). destruct (opens s); [apply run_after_tag | reflexivity].
  - repeat constructor.
Qed.

End FencePattern.

Section Extraction.

Lemma search_unfold p s :
  search search_flags p s =
  match run search_flags p s false [] with
  | Some g => Some g
  | None => match s with _ :: s' => search search_flags p s' | [] => None end
  end.
Proof. destruct s; reflexivity. Qed.

Lemma search_skip pre rest :
  absent_before (lit "```sql") (List.length pre) (lower (pre ++ rest)) ->
  search search_flags sql_fence (pre ++ rest) = search search_flags sql_fence rest.
Proof.
  induction pre as [|c pre IH]; intros H; [reflexivity|].
  rewrite search_unfold, run_sql_fence.
  unfold opens.
  assert (H0 := H 0 ltac:(simpl; lia)). cbn [skipn] in H0. rewrite H0.
  apply IH. exact (@absent_before_tail _ _ _ _ H).
Qed.

Lemma until_close_first x post :
  absent_before fence (List.length x) (x ++ fence ++ post) ->
  until_close (x ++ fence ++ post) = Some (rstrip x).
Proof.
  induction x as [|c x IH]; intros H; [reflexivity|].
  rewrite rstrip_cons.
  change (until_close ((c :: x) ++ fence ++ post)) with
    (if closes ((c :: x) ++ fence ++ post) then Some []
     else option_map (cons c) (until_close (x ++ fence ++ post))).
  unfold closes.
  destruct (forallb is_space (c :: x)) eqn:E.
  - now rewrite (@lstrip_all_space (c :: x) (fence ++ post) E).
  - destruct (@lstrip_is_skipn (c :: x) (fence ++ post) E) as (k & Hk & ->).
    rewrite (H k Hk), IH; [reflexivity|].
    exact (@absent_before_tail _ _ _ _ H).
Qed.

Lemma lower_tag_opens tag rest :
  lower tag = lit "sql" ->
  opens (fence ++ tag ++ rest) = true /\ skipn 6 (fence ++ tag ++ rest) = rest.
Proof.
  destruct tag as [|a [|b [|c [|d tag]]]]; try discriminate.
  cbn [lower map lit list_ascii_of_string]. intros [= Ha Hb Hc].
  split; [|reflexivity].
  unfold opens. cbn [fence lit list_ascii_of_string app lower map startswith].
  rewrite Ha, Hb, Hc. reflexivity.
Qed.

Lemma opens_split s :
  opens s = true ->
  exists tag rest, s = fence ++ tag ++ rest /\ lower tag = lit "sql" /\ skipn 6 s = rest.
Proof.
  unfold opens.
  destruct s as [|c1 [|c2 [|c3 [|a [|b [|c s]]]]]];
    cbn [lit list_ascii_of_string lower map startswith]; rewrite ?lower_backtick;
    intros H; repeat (apply andb_true_iff in H as [?E H]); try discriminate.
  repeat match goal with E : Ascii.eqb _ _ = true |- _ => apply Ascii.eqb_eq in E end.
  subst c1 c2 c3. exists [a; b; c], s. repeat split.
  cbn [lower map]. congruence.
Qed.

Lemma until_close_some u g :
  until_close u = Some g -> exists v, u = g ++ v /\ closes v = true.
Proof.
  revert g; induction u as [|c u IH]; intros g; cbn [until_close].
  - destruct (closes []) eqn:E; [|discriminate]. intros [= <-]. now exists [].
  - destruct (closes (c :: u)) eqn:E.
    + intros [= <-]. now exists (c :: u).
    + destruct (until_close u) as [g'|]; [|discriminate].
      intros [= <-]. destruct (IH _ eq_refl) as (v & -> & Hv). now exists v.
Qed.

Lemma closes_split v :
  closes v = true -> exists w post, v = w ++ fence ++ post.
Proof.
  unfold closes. intros H. destruct (@startswith_split _ _ H) as [post Hp].
  destruct (lstrip_suffix v) as [w Hw]. exists w, post. now rewrite <- Hp.
Qed.

Lemma run_sql_fence_block s g :
  run search_flags sql_fence s false [] = Some g -> has_sql_block s.
Proof.
  rewrite run_sql_fence. destruct (opens s) eqn:Eo; [|discriminate].
  destruct (@opens_split _ Eo) as (tag & rest & -> & Ht & ->).
  intros Hu. destruct (@until_close_some _ _ Hu) as (v & Hv & Hc).
  destruct (@closes_split _ Hc) as (w & post & ->).
  destruct (lstrip_suffix rest) as [w0 Hw0].
  exists [], tag, (w0 ++ g ++ w), post. split; [|exact Ht].
  cbn [app]. rewrite Hw0 at 1. rewrite Hv. now rewrite <- !app_assoc.
Qed.

Lemma search_block s g :
  search search_flags sql_fence s = Some g -> has_sql_block s.
Proof.
  induction s as [|c s IH]; rewrite search_unfold;
    destruct (run search_flags sql_fence _ false []) eqn:E; try discriminate;
    try (intros _; exact (@run_sql_fence_block _ _ E)).
  intros H. destruct (IH H) as (pre & tag & inner & post & -> & Ht).
  now exists (c :: pre), tag, inner, post.
Qed.

End Extraction.


(** ** The retry loop *)

Section Retry.

Context {py : Python}.

Lemma count_calls_app (t t' : list event) :
  count_calls (t ++ t') = count_calls t + count_calls t'.
Proof.
  induction t as [|e t IH]; [reflexivity|].
  destruct e; simpl; rewrite ?IH; reflexivity.
Qed.

Lemma sleeps_app (t t' : list event) : sleeps (t ++ t') = sleeps t ++ sleeps t'.
Proof.
  induction t as [|e t IH]; [reflexivity|].
  destruct e; simpl; rewrite ?IH; reflexivity.
Qed.

Lemma backoff_S delay k : backoff delay (S k) = delay :: backoff (delay * 2) k.
Proof.
  unfold backoff. cbn [seq map]. f_equal; [cbn; lia|].
  rewrite <- seq_shift, map_map. apply map_ext. intros i.
  rewrite Nat2Z.inj_succ, Z.pow_succ_r by lia. lia.
Qed.

Variable ep : endpoint.
Variable messages : list (str * str).
Variable max_retries : Z.

(** [k] rate-limited attempts with budget left: the loop logs them,
    sleeps after each, and goes on with the delay doubled [k] times. *)
Lemma retry_loop_rate_limited k : forall fuel retries delay n,
  (forall i, i < k -> rate_limited (ep (n + i))) ->
  (retries + Z.of_nat k < max_retries)%Z ->
  exists t,
    count_calls t = k /\ sleeps t = backoff delay k /\
    retry_loop ep messages max_retries (k + fuel) retries delay n =
    match retry_loop ep messages max_retries fuel (retries + Z.of_nat k)%Z (delay * 2 ^ Z.of_nat k)%Z (n + k) with
    | Some (r, t') => Some (r, t ++ t')
    | None => None
    end.
Proof.
  induction k as [|k IH]; intros fuel retries delay n Hrl Hlt.
  - exists []. repeat split. cbn [Nat.add Z.of_nat].
    rewrite Z.add_0_r, Nat.add_0_r, Z.pow_0_r, Z.mul_1_r.
    now destruct (retry_loop ep messages max_retries fuel retries delay n) as [[r t]|].
  - destruct (Hrl 0 ltac:(lia)) as [e He]. rewrite Nat.add_0_r in He.
    destruct (IH fuel (retries + 1)%Z (delay * 2)%Z (S n)) as (t & Hc & Hs & Ht).
    { intros i Hi. replace (S n + i) with (n + S i) by lia. apply Hrl. lia. }
    { lia. }
    replace (retries + 1 + Z.of_nat k)%Z with (retries + Z.of_nat (S k))%Z in Ht by lia.
    replace (delay * 2 * 2 ^ Z.of_nat k)%Z with (delay * 2 ^ Z.of_nat (S k))%Z in Ht
      by (rewrite Nat2Z.inj_succ, Z.pow_succ_r by lia; lia).
    replace (S n + k) with (n + S k) in Ht by lia.
    exists (attempt_events messages retries max_retries
            ++ [st_warning (lit "Rate limit hit. Retrying in " ++ str_of_int delay
                            ++ lit " seconds... (Attempt " ++ str_of_int (retries + 1)
                            ++ lit "/" ++ str_of_int max_retries ++ lit ")");
                time_sleep delay]
            ++ t).
    split; [|split].
    + rewrite !count_calls_app, Hc. reflexivity.
    + rewrite !sleeps_app, Hs, backoff_S. reflexivity.
    + cbn [Nat.add retry_loop]. rewrite He.
      assert ((retries <? max_retries)%Z = true) as -> by (apply Z.ltb_lt; lia).
      assert ((retries + 1 <? max_retries)%Z = true) as -> by (apply Z.ltb_lt; lia).
      rewrite Ht.
      destruct (retry_loop ep messages max_retries fuel _ _ _) as [[r t']|]; [|reflexivity].
      now rewrite <- !app_assoc.
Qed.


End Retry.

Section Client.

Context {py : Python}.
Variable ep : endpoint.
Variables question system_prompt : str.
Variables max_retries initial_delay : Z.

(** After [k] rate-limited attempts with budget left, the result is
    that of one more pass through the loop body. *)
Lemma get_llm_response_after k :
  (forall i, i < k -> rate_limited (ep i)) ->
  (Z.of_nat k < max_retries)%Z ->
  exists t fuel,
    count_calls t = k /\ sleeps t = backoff initial_delay k /\
    get_llm_response ep question system_prompt max_retries initial_delay =
    match retry_loop ep (messages_of question system_prompt) max_retries (S fuel) (Z.of_nat k)
            (initial_delay * 2 ^ Z.of_nat k)%Z k with
    | Some (r, t') => Some (r, t ++ t')
    | None => None
    end.
Proof.
  intros Hrl Hlt.
  destruct (@retry_loop_rate_limited py ep (messages_of question system_prompt) max_retries k
              (S (Z.to_nat max_retries - k - 1)) 0%Z initial_delay 0)
    as (t & Hc & Hs & Ht); [exact Hrl | lia |].
  exists t, (Z.to_nat max_retries - k - 1). split; [exact Hc|]. split; [exact Hs|].
  cbn [Z.add Nat.add] in Ht. unfold get_llm_response. rewrite <- Ht. f_equal. lia.
Qed.

Lemma get_llm_response_content k content :
  (forall i, i < k -> rate_limited (ep i)) ->
  ep k = Return content ->
  (Z.of_nat k < max_retries)%Z ->
  exists t,
    get_llm_response ep question system_prompt max_retries initial_delay =
    Some (Return content, t ++ attempt_events (messages_of question system_prompt) (Z.of_nat k) max_retries)
    /\ count_calls t = k /\ sleeps t = backoff initial_delay k.
Proof.
  intros Hrl Hk Hlt. destruct (get_llm_response_after Hrl Hlt) as (t & fuel & Hc & Hs & ->).
  exists t. split; [|now split]. cbn [retry_loop]. rewrite Hk.
  now assert ((Z.of_nat k <? max_retries)%Z = true) as -> by (apply Z.ltb_lt; lia).
Qed.

Lemma get_llm_response_fatal k e :
  (forall i, i < k -> rate_limited (ep i)) ->
  ep k = Raise e -> is_rate_limit e = false ->
  (Z.of_nat k < max_retries)%Z ->
  exists t,
    get_llm_response ep question system_prompt max_retries initial_delay =
    Some (Return (lit "Error: Could not get response from LLM. Details: " ++ str_of_exn e),
          t ++ attempt_events (messages_of question system_prompt) (Z.of_nat k) max_retries
            ++ [st_error (lit "Error getting response from LLM: " ++ str_of_exn e)])
    /\ count_calls t = k /\ sleeps t = backoff initial_delay k.
Proof.
  intros Hrl Hk He Hlt. destruct (get_llm_response_after Hrl Hlt) as (t & fuel & Hc & Hs & ->).
  exists t. split; [|now split]. cbn [retry_loop]. rewrite Hk.
  assert ((Z.of_nat k <? max_retries)%Z = true) as -> by (apply Z.ltb_lt; lia).
  destruct e; try reflexivity. discriminate.
Qed.

Lemma get_llm_response_exhausted k e :
  (forall i, i < k -> rate_limited (ep i)) ->
  ep k = Raise (RateLimitError e) ->
  max_retries = Z.of_nat (S k) ->
  exists t,
    get_llm_response ep question system_prompt max_retries initial_delay =
    Some (Return (lit "Error: Could not get response from LLM after multiple retries. Details: " ++ e),
          t ++ attempt_events (messages_of question system_prompt) (Z.of_nat k) max_retries
            ++ [st_error (lit "Max retries reached. Error getting response from LLM: " ++ e)])
    /\ count_calls t = k /\ sleeps t = backoff initial_delay k.
Proof.
  intros Hrl Hk Hmax.
  destruct (@get_llm_response_after k Hrl ltac:(lia)) as (t & fuel & Hc & Hs & ->).
  exists t. split; [|now split]. cbn [retry_loop]. rewrite Hk.
  assert ((Z.of_nat k <? max_retries)%Z = true) as -> by (apply Z.ltb_lt; lia).
  now assert ((Z.of_nat k + 1 <? max_retries)%Z = false) as -> by (apply Z.ltb_ge; lia).
Qed.

Lemma get_llm_response_no_budget :
  (max_retries <= 0)%Z ->
  get_llm_response ep question system_prompt max_retries initial_delay =
  Some (Return (lit "Error: Failed to get LLM response."), []).
Proof.
  intros H. unfold get_llm_response.
  destruct (Z.to_nat max_retries); cbn [retry_loop];
    now assert ((0 <? max_retries)%Z = false) as -> by (apply Z.ltb_ge; lia).
Qed.

End Client.

(** The loop with enough fuel, for every endpoint. *)

Section ClientAlways.

Context {py : Python}.
Variable ep : endpoint.
Variable messages : list (str * str).
Variable max_retries : Z.

(** The loop with enough fuel: it returns a text; it calls the endpoint
    at least once when budget is left and at most as often as budget is
    left; it sleeps between calls only, each time twice as long; the
    text is what the last call returned, or it starts with the marker
    of a failed call, or no call was made. *)
Lemma retry_loop_returns (fuel : nat) : forall (retries delay : Z) (n : nat),
  Z.to_nat (max_retries - retries) <= fuel ->
  exists text t,
    retry_loop ep messages max_retries fuel retries delay n = Some (Return text, t)
    /\ count_calls t <= Z.to_nat (max_retries - retries)
    /\ ((retries < max_retries)%Z -> 1 <= count_calls t)
    /\ sleeps t = backoff delay (pred (count_calls t))
    /\ (ep (n + pred (count_calls t)) = Return text /\ 1 <= count_calls t
        \/ startswith llm_error_marker text = true /\ 1 <= count_calls t
        \/ text = lit "Error: Failed to get LLM response." /\ t = []
           /\ (max_retries <= retries)%Z).
Proof.
  induction fuel as [|fuel IH]; intros retries delay n Hfuel.
  - assert (Hge : (max_retries <= retries)%Z) by lia.
    exists (lit "Error: Failed to get LLM response."), [].
    cbn [retry_loop]. apply Z.ltb_ge in Hge as Hb. rewrite Hb.
    repeat split; try (cbn; lia). right. right. now repeat split.
  - cbn [retry_loop]. destruct (retries <? max_retries)%Z eqn:Hb.
    2:{ apply Z.ltb_ge in Hb.
        exists (lit "Error: Failed to get LLM response."), [].
        repeat split; try (cbn; lia). right. right. now repeat split. }
    apply Z.ltb_lt in Hb.
    destruct (ep n) as [content|e] eqn:En.
    + exists content, (attempt_events messages retries max_retries).
      split; [reflexivity|]. cbn [attempt_events count_calls sleeps pred backoff seq map].
      repeat split; try lia. left. rewrite Nat.add_0_r. now split.
    + assert (Hfatal : forall d, str_of_exn e = d -> is_rate_limit e = false ->
        exists text t,
          Some (Return (lit "Error: Could not get response from LLM. Details: " ++ str_of_exn e),
                attempt_events messages retries max_retries
                ++ [st_error (lit "Error getting response from LLM: " ++ str_of_exn e)])
          = Some (Return text, t)
          /\ count_calls t <= Z.to_nat (max_retries - retries)
          /\ ((retries < max_retries)%Z -> 1 <= count_calls t)
          /\ sleeps t = backoff delay (pred (count_calls t))
          /\ (ep (n + pred (count_calls t)) = Return text /\ 1 <= count_calls t
              \/ startswith llm_error_marker text = true /\ 1 <= count_calls t
              \/ text = lit "Error: Failed to get LLM response." /\ t = []
                 /\ (max_retries <= retries)%Z)).
      { intros d _ _. eexists _, _. split; [reflexivity|].
        cbn [attempt_events count_calls sleeps pred backoff seq map app].
        repeat split; try lia. right. left. split; [|lia].
        exact (startswith_app llm_error_marker (lit ". Details: " ++ str_of_exn e)). }
      destruct e as [d|d|d|d]; try (apply (Hfatal d); reflexivity).
      clear Hfatal.
      destruct (retries + 1 <? max_retries)%Z eqn:Hb'.
      * apply Z.ltb_lt in Hb'.
        destruct (IH (retries + 1)%Z (delay * 2)%Z (S n)) as (text & t & -> & Hc & H1 & Hs & Hk);
          [lia|].
        specialize (H1 Hb').
        eexists _, _. split; [reflexivity|].
        rewrite !count_calls_app, !sleeps_app, Hs.
        cbn [attempt_events count_calls sleeps app Nat.add pred].
        assert (Hp : count_calls t = S (pred (count_calls t))) by lia.
        split; [lia|]. split; [lia|]. split.
        { rewrite Hp at 2. now rewrite backoff_S. }
        destruct Hk as [[Hk ?] | [[Hk ?] | (_ & -> & _)]]; [left | right; left | cbn in H1; lia].
        -- split; [|lia]. rewrite <- Hk. f_equal. lia.
        -- split; [exact Hk | lia].
      * eexists _, _. split; [reflexivity|].
        cbn [attempt_events count_calls sleeps pred backoff seq map app].
        repeat split; try lia. right. left. split; [|lia].
        exact (startswith_app llm_error_marker (lit " after multiple retries. Details: " ++ d)).
Qed.

(** With budget left the loop opens with an attempt. *)
Lemma retry_loop_first_attempt (fuel : nat) (retries delay : Z) (n : nat) :
  (retries < max_retries)%Z ->
  Z.to_nat (max_retries - retries) <= fuel ->
  exists text rest,
    retry_loop ep messages max_retries fuel retries delay n =
    Some (Return text, attempt_events messages retries max_retries ++ rest).
Proof.
  intros Hlt Hfuel. destruct fuel as [|fuel]; [lia|].
  cbn [retry_loop]. apply Z.ltb_lt in Hlt as Hb. rewrite Hb.
  destruct (ep n) as [content|e].
  - exists content, []. now rewrite app_nil_r.
  - destruct e as [d|d|d|d]; try (eexists _, _; reflexivity).
    destruct (retries + 1 <? max_retries)%Z eqn:Hb'.
    + apply Z.ltb_lt in Hb'.
      destruct (@retry_loop_returns fuel (retries + 1)%Z (delay * 2)%Z (S n))
        as (text & t & -> & _); [lia|].
      eexists _, _. reflexivity.
    + eexists _, _. reflexivity.
Qed.

(** Calls and pauses alternate: the loop pauses after a call that was
    rate limited and only when another call follows. *)
Lemma retry_loop_pace (fuel : nat) : forall (retries delay : Z) (n : nat) r t,
  retry_loop ep messages max_retries fuel retries delay n = Some (r, t) ->
  ((retries < max_retries)%Z -> 1 <= count_calls t)
  /\ pace t = match count_calls t with
              | O => []
              | S _ => calls_with_pauses (sleeps t)
              end.
Proof.
  induction fuel as [|fuel IH]; intros retries delay n r t; cbn [retry_loop];
    destruct (retries <? max_retries)%Z eqn:Hb; try discriminate;
    try (intros [= <- <-]; apply Z.ltb_ge in Hb; split; [lia | reflexivity]).
  destruct (ep n) as [content|e].
  - intros [= <- <-]. split; [cbn; lia | reflexivity].
  - destruct e as [d|d|d|d]; try (intros [= <- <-]; split; [cbn; lia | reflexivity]).
    destruct (retries + 1 <? max_retries)%Z eqn:Hb'.
    + destruct (retry_loop _ _ _ fuel _ _ _) as [[r' t']|] eqn:E; [|discriminate].
      intros [= <- <-]. apply Z.ltb_lt in Hb'.
      destruct (IH _ _ _ _ _ E) as [H1 Hp]. specialize (H1 Hb').
      unfold attempt_events. cbn [app pace count_calls sleeps]. split; [lia|].
      rewrite Hp. destruct (count_calls t'); [lia | reflexivity].
    + intros [= <- <-]. split; [cbn; lia | reflexivity].
Qed.

End ClientAlways.


(** * Properties of the bridge *)

(** ** Extraction of the candidate *)

(** C3, as the code has it: the tag is required. A text in which a
    marker followed by "sql" in any letter case first occurs after
    [pre], and in which the first closing marker after the tag ends
    [inner], yields [inner] stripped, whatever [pre] and [post] are; a
    text with no tagged block yields the whole text stripped. *)
Theorem extract_sql_tagged_block :
  (forall pre tag inner post,
      lower tag = lit "sql" ->
      absent_before (lit "```sql") (List.length pre)
        (lower (pre ++ fence ++ tag ++ inner ++ fence ++ post)) ->
      absent_before fence (List.length inner) (inner ++ fence ++ post) ->
      extract_sql (pre ++ fence ++ tag ++ inner ++ fence ++ post) = strip inner)
  /\ (forall text, ~ has_sql_block text -> extract_sql text = strip text).
Proof.
  split.
  - intros pre tag inner post Ht Hpre Hin. unfold extract_sql.
    rewrite (@search_skip _ _ Hpre), search_unfold, run_sql_fence.
    destruct (@lower_tag_opens tag (inner ++ fence ++ post) Ht) as [-> ->].
    rewrite lstrip_app_fence, until_close_first by now apply absent_before_lstrip.
    apply strip_idempotent.
  - intros text Hno. unfold extract_sql.
    destruct (search _ sql_fence text) eqn:E; [|reflexivity].
    elim Hno. exact (@search_block _ _ E).
Qed.

Lemma extract_sql_tagged_block_witness :
  (lower (lit "SQL") = lit "sql"
   /\ absent_before (lit "```sql") (List.length (lit "Here: "))
        (lower (lit "Here: " ++ fence ++ lit "SQL" ++ (nl :: lit "SELECT 1 ") ++ fence ++ lit " ok"))
   /\ absent_before fence (List.length (nl :: lit "SELECT 1 "))
        ((nl :: lit "SELECT 1 ") ++ fence ++ lit " ok")
   /\ extract_sql (lit "Here: " ++ fence ++ lit "SQL" ++ (nl :: lit "SELECT 1 ") ++ fence ++ lit " ok")
      = strip (nl :: lit "SELECT 1 "))
  /\ (~ has_sql_block (lit " SELECT 2") /\ extract_sql (lit " SELECT 2") = strip (lit " SELECT 2")).
Proof.
  assert (H1 : absent_before (lit "```sql") (List.length (lit "Here: "))
        (lower (lit "Here: " ++ fence ++ lit "SQL" ++ (nl :: lit "SELECT 1 ") ++ fence ++ lit " ok"))).
  { intros i Hi. do 6 (destruct i as [|i]; [reflexivity|]). simpl in Hi. lia. }
  assert (H2 : absent_before fence (List.length (nl :: lit "SELECT 1 "))
        ((nl :: lit "SELECT 1 ") ++ fence ++ lit " ok")).
  { intros i Hi. do 10 (destruct i as [|i]; [reflexivity|]). simpl in Hi. lia. }
  assert (H3 : ~ has_sql_block (lit " SELECT 2")).
  { intros (pre & tag & inner & post & E & _).
    assert (Hin : In "`"%char (lit " SELECT 2")).
    { rewrite E. apply in_or_app. right. now left. }
    simpl in Hin. repeat (destruct Hin as [Hin | Hin]; [discriminate|]). exact Hin. }
  split.
  - split; [reflexivity|]. split; [exact H1|]. split; [exact H2|].
    exact (proj1 extract_sql_tagged_block (lit "Here: ") (lit "SQL") (nl :: lit "SELECT 1 ") (lit " ok") eq_refl H1 H2).
  - split; [exact H3|]. exact (proj2 extract_sql_tagged_block _ H3).
Defined.

(** A block whose opening marker has no tag is not extracted: the whole
    text, markers included, becomes the candidate. *)
Lemma extract_sql_untagged_block :
  extract_sql (fence ++ [] ++ (nl :: lit "SELECT 1" ++ [nl]) ++ fence)
  = fence ++ (nl :: lit "SELECT 1" ++ [nl]) ++ fence
  /\ extract_sql (fence ++ [] ++ (nl :: lit "SELECT 1" ++ [nl]) ++ fence)
     <> strip (nl :: lit "SELECT 1" ++ [nl]).
Proof. split; [reflexivity | discriminate]. Qed.

(** ** The model client *)

Lemma backoff_two k : backoff 2 k = map (fun i => (2 ^ Z.of_nat i)%Z) (seq 1 k).
Proof.
  unfold backoff. rewrite <- seq_shift, map_map. apply map_ext. intros i.
  rewrite Nat2Z.inj_succ, Z.pow_succ_r by lia. reflexivity.
Qed.

Lemma throttled_before k detail ep i :
  i < k -> rate_limited (throttled k detail ep i).
Proof.
  intros Hi. exists detail. unfold throttled.
  now apply Nat.ltb_lt in Hi as ->.
Qed.

Section ClientProperties.

Context {py : Python}.
Variable ep : endpoint.
Variables question system_prompt : str.

(** C2: with the defaults (10 attempts, first delay 2), an endpoint
    that is rate-limited [k] times and then answers. For [k < 10] the
    answer is returned after [k + 1] calls, with the sleeps 2, 4, ...,
    2^k between them. For [k >= 10] the text of exhaustion is returned
    after 10 calls and 9 sleeps: the log ends with the tenth attempt
    and the error notice, every sleep lies before them. *)
Theorem get_llm_response_default_policy (k : nat) (content : str) :
  (forall i, i < k -> rate_limited (ep i)) ->
  ep k = Return content ->
  (k < 10 ->
   exists t,
     get_llm_response ep question system_prompt 10 2 = Some (Return content, t)
     /\ count_calls t = k + 1
     /\ sleeps t = map (fun i => (2 ^ Z.of_nat i)%Z) (seq 1 k))
  /\ (10 <= k ->
      exists t t0 e,
        ep 9 = Raise (RateLimitError e)
        /\ get_llm_response ep question system_prompt 10 2 =
           Some (Return (lit "Error: Could not get response from LLM after multiple retries. Details: " ++ e), t)
        /\ count_calls t = 10
        /\ sleeps t = map (fun i => (2 ^ Z.of_nat i)%Z) (seq 1 9)
        /\ t = t0 ++ attempt_events (messages_of question system_prompt) 9 10
                 ++ [st_error (lit "Max retries reached. Error getting response from LLM: " ++ e)]
        /\ sleeps t0 = sleeps t).
Proof.
  intros Hrl Hk. split; intros Hlt.
  - destruct (@get_llm_response_content py ep question system_prompt 10 2 k content Hrl Hk)
      as (t & -> & Hc & Hs); [lia|].
    eexists. split; [reflexivity|].
    rewrite count_calls_app, sleeps_app, Hc, Hs, backoff_two. cbn [attempt_events count_calls sleeps].
    now rewrite app_nil_r.
  - destruct (Hrl 9 ltac:(lia)) as [e He].
    destruct (@get_llm_response_exhausted py ep question system_prompt 10 2 9 e)
      as (t & -> & Hc & Hs); [intros i Hi; apply Hrl; lia | exact He | reflexivity |].
    eexists _, t, e. split; [exact He|]. split; [reflexivity|].
    rewrite count_calls_app, !sleeps_app, Hc, Hs, backoff_two.
    cbn [attempt_events count_calls sleeps app]. rewrite app_nil_r.
    repeat split.
Qed.

(** C8: a failure other than a rate limit, at the attempt after [k]
    rate-limited ones and within the budget, ends the call at once. The
    text returned carries [str(e)]; the failing call is the last of
    [k + 1], the only sleeps are those of the [k] rate limits, and the
    log ends with that attempt and the error notice. This holds on the
    last attempt of the budget too ([max_retries = k + 1]). *)
Theorem get_llm_response_fatal_stops (max_retries initial_delay : Z) (k : nat) (e : exn) :
  (forall i, i < k -> rate_limited (ep i)) ->
  ep k = Raise e ->
  is_rate_limit e = false ->
  (Z.of_nat k < max_retries)%Z ->
  exists t t0,
    get_llm_response ep question system_prompt max_retries initial_delay =
    Some (Return (lit "Error: Could not get response from LLM. Details: " ++ str_of_exn e), t)
    /\ count_calls t = k + 1
    /\ sleeps t = map (fun i => (initial_delay * 2 ^ Z.of_nat i)%Z) (seq 0 k)
    /\ t = t0 ++ attempt_events (messages_of question system_prompt) (Z.of_nat k) max_retries
             ++ [st_error (lit "Error getting response from LLM: " ++ str_of_exn e)]
    /\ sleeps t0 = sleeps t.
Proof.
  intros Hrl Hk He Hlt.
  destruct (@get_llm_response_fatal py ep question system_prompt max_retries initial_delay
              k e Hrl Hk He Hlt) as (t & -> & Hc & Hs).
  eexists _, t. split; [reflexivity|].
  rewrite count_calls_app, !sleeps_app, Hc, Hs.
  cbn [attempt_events count_calls sleeps app]. rewrite app_nil_r.
  repeat split.
Qed.

End ClientProperties.

Lemma get_llm_response_default_policy_witness :
  ((forall i, i < 2 -> rate_limited (throttled 2 (lit "429") (answering (lit "SELECT 1")) i))
   /\ throttled 2 (lit "429") (answering (lit "SELECT 1")) 2 = Return (lit "SELECT 1")
   /\ exists t,
       get_llm_response (py := int_cells) (throttled 2 (lit "429") (answering (lit "SELECT 1")))
         (lit "q") prompt_text 10 2 = Some (Return (lit "SELECT 1"), t)
       /\ count_calls t = 3 /\ sleeps t = [2; 4]%Z)
  /\ ((forall i, i < 10 -> rate_limited (throttled 10 (lit "429") (answering (lit "SELECT 1")) i))
      /\ throttled 10 (lit "429") (answering (lit "SELECT 1")) 10 = Return (lit "SELECT 1")
      /\ exists t,
          get_llm_response (py := int_cells) (throttled 10 (lit "429") (answering (lit "SELECT 1")))
            (lit "q") prompt_text 10 2 =
          Some (Return (lit "Error: Could not get response from LLM after multiple retries. Details: 429"), t)
          /\ count_calls t = 10
          /\ sleeps t = [2; 4; 8; 16; 32; 64; 128; 256; 512]%Z).
Proof.
  split.
  - split; [intros i; apply throttled_before|]. split; [reflexivity|].
    destruct (proj1 (@get_llm_response_default_policy int_cells
                       (throttled 2 (lit "429") (answering (lit "SELECT 1")))
                       (lit "q") prompt_text 2 (lit "SELECT 1")
                       (fun i => @throttled_before 2 (lit "429") _ i) eq_refl)
                ltac:(lia)) as (t & Ht & Hc & Hs).
    exists t. repeat split; assumption.
  - split; [intros i; apply throttled_before|]. split; [reflexivity|].
    destruct (proj2 (@get_llm_response_default_policy int_cells
                       (throttled 10 (lit "429") (answering (lit "SELECT 1")))
                       (lit "q") prompt_text 10 (lit "SELECT 1")
                       (fun i => @throttled_before 10 (lit "429") _ i) eq_refl)
                ltac:(lia)) as (t & t0 & e & He & Ht & Hc & Hs & _).
    injection He as <-.
    exists t. repeat split; assumption.
Defined.

Lemma get_llm_response_fatal_stops_witness :
  (forall i, i < 1 -> rate_limited (throttled 1 (lit "429") (failing (Exception (lit "no route"))) i))
  /\ throttled 1 (lit "429") (failing (Exception (lit "no route"))) 1 = Raise (Exception (lit "no route"))
  /\ is_rate_limit (Exception (lit "no route")) = false
  /\ (Z.of_nat 1 < 2)%Z
  /\ exists t,
      get_llm_response (py := int_cells) (throttled 1 (lit "429") (failing (Exception (lit "no route"))))
        (lit "q") prompt_text 2 2 =
      Some (Return (lit "Error: Could not get response from LLM. Details: no route"), t)
      /\ count_calls t = 2 /\ sleeps t = [2]%Z.
Proof.
  split; [intros i; apply throttled_before|]. split; [reflexivity|].
  split; [reflexivity|]. split; [reflexivity|].
  destruct (@get_llm_response_fatal_stops int_cells
              (throttled 1 (lit "429") (failing (Exception (lit "no route"))))
              (lit "q") prompt_text 2 2 1 (Exception (lit "no route"))
              (fun i => @throttled_before 1 (lit "429") _ i) eq_refl eq_refl eq_refl)
    as (t & t0 & Ht & Hc & Hs & _).
  exists t. repeat split; assumption.
Defined.

(** C10: without a budget ([max_retries <= 0]) the loop body never
    runs. Nothing is logged, so no call is made; the text returned is
    the fallback, which passes through extraction unchanged, holds no
    marker of a failed call and starts with no statement keyword: the
    handler answers it with the warning to refine the question. *)
Theorem get_llm_response_without_budget {py : Python} (ep : endpoint)
    (question system_prompt : str) (max_retries initial_delay : Z) (eng : engine) :
  (max_retries <= 0)%Z ->
  get_llm_response ep question system_prompt max_retries initial_delay =
    Some (Return (lit "Error: Failed to get LLM response."), [])
  /\ extract_sql (lit "Error: Failed to get LLM response.") = lit "Error: Failed to get LLM response."
  /\ contains llm_error_marker (lit "Error: Failed to get LLM response.") = false
  /\ statement_keyword (lit "Error: Failed to get LLM response.") = false
  /\ handle_response eng (lit "Error: Failed to get LLM response.") =
     (Return tt, [st_warning refine_warning]).
Proof.
  intros H. split; [now apply get_llm_response_no_budget|].
  repeat split; vm_compute; reflexivity.
Qed.

Lemma get_llm_response_without_budget_witness :
  (0 <= 0)%Z
  /\ get_llm_response (py := int_cells) (answering (lit "SELECT 1")) (lit "q") prompt_text 0 2 =
     Some (Return (lit "Error: Failed to get LLM response."), [])
  /\ handle_response (py := int_cells) (int_store [[1%Z]]) (lit "Error: Failed to get LLM response.") =
     (Return tt, [st_warning refine_warning]).
Proof.
  destruct (@get_llm_response_without_budget int_cells (answering (lit "SELECT 1")) (lit "q")
              prompt_text 0 2 (int_store [[1%Z]]) ltac:(reflexivity))
    as (H1 & _ & _ & _ & H2).
  split; [discriminate|]. split; assumption.
Defined.

(** ** The handler *)

Section HandlerProperties.

Context {py : Python}.

Lemma executed_app (t t' : list event) : executed (t ++ t') = executed t ++ executed t'.
Proof.
  induction t as [|e t IH]; [reflexivity|].
  destruct e; simpl; rewrite ?IH; reflexivity.
Qed.

(** C1, as the code has it: a candidate that fails the keyword test is
    never executed. It is answered with one notice and nothing else:
    the warning to refine the question, or, when it holds the marker of
    a failed model call, the candidate itself as an error. Whenever the
    handler asks anything of sqlite3, the candidate has passed the
    test and holds no marker, and the statement executed is the
    candidate. *)
Theorem handle_response_keyword_gate (eng : engine) (response : str) :
  (statement_keyword (extract_sql response) = false ->
   handle_response eng response =
   (Return tt,
    [if contains llm_error_marker (extract_sql response)
     then st_error (extract_sql response)
     else st_warning refine_warning]))
  /\ (forall ev,
        In ev (calls_out (handle_response eng response)) -> touches_store ev = true ->
        statement_keyword (extract_sql response) = true
        /\ contains llm_error_marker (extract_sql response) = false)
  /\ (statement_keyword (extract_sql response) = true ->
      contains llm_error_marker (extract_sql response) = false ->
      exists shown,
        handle_response eng response =
        (data <- execute_sql_query eng (extract_sql response) (lit "company.db") ;; shown data)).
Proof.
  unfold handle_response. split; [|split].
  - intros ->. now destruct (contains llm_error_marker _).
  - intros ev. destruct (contains llm_error_marker _).
    + intros [<- | []]. discriminate.
    + destruct (statement_keyword _); [now split|].
      intros [<- | []]. discriminate.
  - intros -> ->. eexists. reflexivity.
Qed.

(** C4, as the code has it: the empty question is answered with the
    warning alone; no call to the model is made. Every other question,
    one of white space included, is sent to the model as it is: the
    handler runs to its end, and after the notice "Getting answer from
    AI..." comes the first attempt, a call to the endpoint with the
    question as the user message. *)
Theorem ask_ai_empty_question (ep : endpoint) (eng : engine) :
  ask_ai ep eng true [] =
    Some (Return tt, [st_warning (lit "Please enter a question for the AI.")])
  /\ option_map (fun m => count_calls (calls_out m)) (ask_ai ep eng true []) = Some 0
  /\ (forall ai_question : str, ai_question <> [] ->
      exists r rest,
        ask_ai ep eng true ai_question =
        Some (r, st_info (lit "Getting answer from AI...")
                 :: st_spinner (lit "Asking AI... (Attempt 1/10)")
                 :: litellm_completion (lit "openrouter/moonshotai/kimi-k2:free")
                      [(lit "system", prompt_text); (lit "user", ai_question)]
                 :: rest)
        /\ 1 <= count_calls (calls_out (r, st_info (lit "Getting answer from AI...")
                 :: st_spinner (lit "Asking AI... (Attempt 1/10)")
                 :: litellm_completion (lit "openrouter/moonshotai/kimi-k2:free")
                      [(lit "system", prompt_text); (lit "user", ai_question)]
                 :: rest))).
Proof.
  split; [reflexivity|]. split; [reflexivity|].
  intros [|c q] Hq; [contradiction|].
  unfold ask_ai, get_llm_response. cbn [truthy andb].
  destruct (@retry_loop_first_attempt py ep (messages_of (c :: q) prompt_text) 10
              (Z.to_nat 10) 0%Z 2%Z 0) as (text & rest & ->); [lia | cbn; lia |].
  destruct (handle_response eng text) as [r t] eqn:E.
  exists r, (rest ++ t). split; [|cbn; lia].
  unfold bind, emit. rewrite E. cbn [app attempt_events]. reflexivity.
Qed.

(** *** The executor *)

(** C6 evaluated where [sqlite3.connect] fails: the [sqlite3.Error]
    leaves [execute_sql_query]; the call precedes the [try]. *)
Theorem execute_sql_query_unopenable (sql db : str) :
  execute_sql_query unopenable sql db =
  (Raise (sqlite3_Error (lit "unable to open database file")), [sqlite3_connect db]).
Proof. reflexivity. Qed.

Lemma try_finally_emit {A} (m : io A) (e : event) :
  try_finally m (emit e) = (fst m, snd m ++ [e]).
Proof. now destruct m. Qed.

Lemma bind_call_return {A B} (e : event) (a : A) (k : A -> io B) :
  (x <- call e (Return a) ;; k x) = (fst (k a), e :: snd (k a)).
Proof. unfold bind, call. now destruct (k a). Qed.

Lemma bind_call_raise {A B} (e : event) (x : exn) (k : A -> io B) :
  (v <- call e (Raise x) ;; k v) = (Raise x, [e]).
Proof. reflexivity. Qed.

(** Once the connection is open: the rows are returned, or a
    [sqlite3.Error] becomes a text that starts with the marker of line
    308, or another exception leaves; the connection is closed last in
    every case. *)
Lemma execute_sql_query_connected (eng : engine) (sql db : str) :
  connecting eng db = Return tt ->
  exists r t,
    execute_sql_query eng sql db = (r, sqlite3_connect db :: t ++ [conn_close])
    /\ ((exists rows, r = Return (Rows rows))
        \/ (exists d, r = Return (ErrorText (lit "Error executing SQL query: " ++ d)))
        \/ (exists e, r = Raise e /\ forall d, e <> sqlite3_Error d)).
Proof.
  intros Hc. unfold execute_sql_query. rewrite Hc, bind_call_return, try_finally_emit.
  match goal with |- context [try_except_sqlite3 ?b ?h] =>
    assert (Hb : exists r t, try_except_sqlite3 b h = (r, t)
              /\ ((exists rows, r = Return (Rows rows))
                  \/ (exists d, r = Return (ErrorText (lit "Error executing SQL query: " ++ d)))
                  \/ (exists e, r = Raise e /\ forall d, e <> sqlite3_Error d)))
  end.
  { destruct (executing eng db sql) as [[]|e1].
    - rewrite bind_call_return.
      destruct (fetching eng db sql) as [rows|e2].
      + rewrite bind_call_return.
        destruct (committing eng db sql) as [[]|e3].
        * rewrite bind_call_return. eexists _, _. split; [reflexivity|].
          left. now exists rows.
        * rewrite bind_call_raise.
          destruct e3; eexists _, _; (split; [reflexivity|]);
            solve [ right; left; eexists; reflexivity
                  | right; right; eexists; (split; [reflexivity | discriminate]) ].
      + rewrite bind_call_raise.
        destruct e2; eexists _, _; (split; [reflexivity|]);
          solve [ right; left; eexists; reflexivity
                | right; right; eexists; (split; [reflexivity | discriminate]) ].
    - rewrite bind_call_raise.
      destruct e1; eexists _, _; (split; [reflexivity|]);
        solve [ right; left; eexists; reflexivity
              | right; right; eexists; (split; [reflexivity | discriminate]) ]. }
  destruct Hb as (r & t & -> & Hr). exists r, t. split; [reflexivity | exact Hr].
Qed.

(** The text of a failed model call in which no tagged block occurs is
    shown as an error, stripped, and nothing is executed. Both failure
    texts of [get_llm_response] start with the marker. *)
Lemma failure_text_without_block_is_shown (eng : engine) (rest : str) :
  ~ has_sql_block (llm_error_marker ++ rest) ->
  handle_response eng (llm_error_marker ++ rest) =
  (Return tt, [st_error (strip (llm_error_marker ++ rest))]).
Proof.
  intros Hno. unfold handle_response.
  assert (extract_sql (llm_error_marker ++ rest) = strip (llm_error_marker ++ rest)) as ->.
  { unfold extract_sql.
    destruct (search _ sql_fence (llm_error_marker ++ rest)) eqn:E; [|reflexivity].
    elim Hno. exact (@search_block _ _ E). }
  assert (contains llm_error_marker (strip (llm_error_marker ++ rest)) = true) as ->;
    [|reflexivity].
  unfold strip.
  assert (lstrip (llm_error_marker ++ rest) = llm_error_marker ++ rest) as -> by reflexivity.
  destruct (@rstrip_keeps_prefix llm_error_marker rest) as [r' ->];
    [discriminate | reflexivity |].
  apply contains_prefix.
Qed.

End HandlerProperties.

Lemma error_text_has_marker (d : str) :
  contains (lit "Error executing SQL query") (lit "Error executing SQL query: " ++ d) = true.
Proof.
  change (lit "Error executing SQL query: " ++ d)
    with (lit "Error executing SQL query" ++ (lit ": " ++ d)).
  destruct (lit "Error executing SQL query" ++ lit ": " ++ d) eqn:E;
    cbn [contains]; rewrite <- E, startswith_app; reflexivity.
Qed.

Lemma handle_response_keyword_gate_witness :
  (statement_keyword (extract_sql (lit "I cannot answer that.")) = false
   /\ handle_response (py := int_cells) (int_store [[7%Z]]) (lit "I cannot answer that.") =
      (Return tt, [st_warning refine_warning]))
  /\ (In (cur_execute (lit "SELECT COUNT(*) FROM EMPLOYEE") [])
        (calls_out (handle_response (py := int_cells) (int_store [[7%Z]])
                      (lit "SELECT COUNT(*) FROM EMPLOYEE")))
      /\ touches_store (py := int_cells) (cur_execute (lit "SELECT COUNT(*) FROM EMPLOYEE") []) = true
      /\ statement_keyword (extract_sql (lit "SELECT COUNT(*) FROM EMPLOYEE")) = true).
Proof.
  pose proof (@handle_response_keyword_gate int_cells (int_store [[7%Z]])
                (lit "I cannot answer that.")) as (H1 & _ & _).
  pose proof (@handle_response_keyword_gate int_cells (int_store [[7%Z]])
                (lit "SELECT COUNT(*) FROM EMPLOYEE")) as (_ & H2 & _).
  assert (Hin : In (cur_execute (lit "SELECT COUNT(*) FROM EMPLOYEE") [])
        (calls_out (handle_response (py := int_cells) (int_store [[7%Z]])
                      (lit "SELECT COUNT(*) FROM EMPLOYEE")))).
  { right. left. reflexivity. }
  split.
  - split; [reflexivity|]. exact (H1 eq_refl).
  - split; [exact Hin|]. split; [reflexivity|].
    exact (proj1 (H2 _ Hin eq_refl)).
Defined.

(** A candidate that fails the keyword test and is not answered with
    the warning: the text of a failed model call is shown as an error. *)
Lemma failed_call_text_is_shown_as_error :
  statement_keyword (extract_sql (lit "Error: Could not get response from LLM. Details: timeout")) = false
  /\ handle_response (py := int_cells) (int_store [])
       (lit "Error: Could not get response from LLM. Details: timeout") =
     (Return tt, [st_error (lit "Error: Could not get response from LLM. Details: timeout")])
  /\ handle_response (py := int_cells) (int_store [])
       (lit "Error: Could not get response from LLM. Details: timeout") <>
     (Return tt, [st_warning refine_warning]).
Proof. repeat split; try reflexivity. discriminate. Qed.

(** A question of one space is not empty: it is sent to the model. *)
Lemma ask_ai_blank_question_is_sent :
  forallb is_space (lit " ") = true
  /\ option_map (fun m => count_calls (calls_out m))
       (ask_ai (py := int_cells) (answering (lit "SELECT COUNT(*) FROM EMPLOYEE"))
          (int_store [[3%Z]]) true (lit " ")) = Some 1
  /\ ask_ai (py := int_cells) (answering (lit "SELECT COUNT(*) FROM EMPLOYEE"))
       (int_store [[3%Z]]) true (lit " ") <>
     Some (Return tt, [st_warning (lit "Please enter a question for the AI.")]).
Proof. repeat split; try (vm_compute; reflexivity). vm_compute. discriminate. Qed.

Lemma ask_ai_empty_question_witness :
  lit " " <> []
  /\ exists r rest,
       ask_ai (py := int_cells) (answering (lit "SELECT COUNT(*) FROM EMPLOYEE"))
         (int_store [[3%Z]]) true (lit " ") =
       Some (r, st_info (lit "Getting answer from AI...")
                :: st_spinner (lit "Asking AI... (Attempt 1/10)")
                :: litellm_completion (lit "openrouter/moonshotai/kimi-k2:free")
                     [(lit "system", prompt_text); (lit "user", lit " ")]
                :: rest).
Proof.
  split; [discriminate|].
  destruct (@ask_ai_empty_question int_cells (answering (lit "SELECT COUNT(*) FROM EMPLOYEE"))
              (int_store [[3%Z]])) as (_ & _ & H).
  destruct (H (lit " ") ltac:(discriminate)) as (r & rest & Hr & _).
  exists r, rest. exact Hr.
Defined.

(** C7 evaluated where the failure detail holds a tagged block: the
    model client returns its failure text, extraction takes the block
    out of it, the marker is gone from the candidate, and the handler
    executes the statement. *)
Theorem failure_text_with_block_is_executed :
  option_map fst
    (get_llm_response (py := int_cells)
       (failing (Exception (fence ++ lit "sql DELETE FROM EMPLOYEE " ++ fence)))
       (lit "Who left?") prompt_text 10 2)
  = Some (Return (lit "Error: Could not get response from LLM. Details: "
                  ++ fence ++ lit "sql DELETE FROM EMPLOYEE " ++ fence))
  /\ extract_sql (lit "Error: Could not get response from LLM. Details: "
                  ++ fence ++ lit "sql DELETE FROM EMPLOYEE " ++ fence)
     = lit "DELETE FROM EMPLOYEE"
  /\ option_map (fun m => executed (calls_out m))
       (ask_ai (py := int_cells)
          (failing (Exception (fence ++ lit "sql DELETE FROM EMPLOYEE " ++ fence)))
          (int_store []) true (lit "Who left?"))
     = Some [lit "DELETE FROM EMPLOYEE"].
Proof. repeat split; vm_compute; reflexivity. Qed.

(** ** Shaping of the rows *)

Section ShapingProperties.

Context {py : Python}.

Lemma widest_uniform (rows : list (list cell)) (w : nat) :
  rows <> [] -> Forall (fun r => List.length r = w) rows -> widest rows = w.
Proof.
  intros Hne Hall. induction Hall as [|r rows Hr Hall IH]; [congruence|].
  unfold widest in *. cbn [map fold_right]. rewrite Hr.
  destruct rows as [|r' rows]; [cbn; lia|].
  rewrite IH by discriminate. lia.
Qed.

Lemma inferred_columns_seq (row : list cell) :
  inferred_columns row =
  map (fun i => lit "Column_" ++ str_of_nat i) (seq 1 (List.length row)).
Proof.
  unfold inferred_columns. rewrite <- seq_shift, map_map.
  apply map_ext. intros i. now rewrite Nat.add_1_r.
Qed.

(** What [show_answer] does with rows that are neither none nor one
    single value. *)
Lemma show_answer_table (sql : str) (row0 : list cell) (rest : list (list cell)) :
  (forall x, row0 :: rest <> [[x]]) ->
  show_answer sql (row0 :: rest) =
  (emit (st_subheader (lit "AI Answer:")) ;;
   df <- (if startswith (lit "select * from employee") (lower sql)
          then pd_DataFrame (row0 :: rest) canonical_columns
          else pd_DataFrame (row0 :: rest) (inferred_columns row0)) ;;
   emit (st_dataframe df)).
Proof.
  intros H. destruct row0 as [|x [|y row0]]; destruct rest as [|r1 rest]; try reflexivity.
  now elim (H x).
Qed.

(** C5, as the code has it, for rows of one width [w]: no row gives the
    "no data" notice; one row of one value gives that value; otherwise
    a statement that starts with "select * from employee" in any letter
    case gives the table under the nine canonical names when [w = 9] and
    the [ValueError] of pandas when not; any other statement gives the
    table under Column_1, ..., Column_w. *)
Theorem show_answer_rules (sql : str) (rows : list (list cell)) (w : nat) :
  Forall (fun r => List.length r = w) rows ->
  (rows = [] ->
   show_answer sql rows =
   (Return tt, [st_subheader (lit "AI Answer:");
                st_info (lit "No data found for your AI query.")]))
  /\ (forall x, rows = [[x]] ->
      show_answer sql rows =
      (Return tt, [st_subheader (lit "AI Answer:");
                   st_success (lit "The answer is: **" ++ str_cell x ++ lit "**")]))
  /\ (rows <> [] -> (forall x, rows <> [[x]]) ->
      if startswith (lit "select * from employee") (lower sql) then
        if w =? 9 then
          show_answer sql rows =
          (Return tt, [st_subheader (lit "AI Answer:");
                       st_dataframe {| columns := canonical_columns; values := rows |}])
        else
          show_answer sql rows =
          (Raise (ValueError (lit "9 columns passed, passed data had " ++ str_of_nat w
                              ++ lit " columns")),
           [st_subheader (lit "AI Answer:")])
      else
        show_answer sql rows =
        (Return tt, [st_subheader (lit "AI Answer:");
                     st_dataframe
                       {| columns := map (fun i => lit "Column_" ++ str_of_nat i) (seq 1 w);
                          values := rows |}])).
Proof.
  intros Hall. split; [|split].
  - intros ->. reflexivity.
  - intros x ->. reflexivity.
  - intros Hne Hns. destruct rows as [|row0 rest]; [congruence|].
    rewrite (@show_answer_table sql row0 rest Hns).
    assert (Hw : widest (row0 :: rest) = w) by now apply widest_uniform.
    assert (H0 : List.length row0 = w) by now inversion Hall.
    unfold pd_DataFrame. rewrite Hw.
    destruct (startswith _ (lower sql)).
    + change (List.length canonical_columns) with 9.
      destruct (w =? 9); reflexivity.
    + rewrite inferred_columns_seq, length_map, length_seq, H0, Nat.eqb_refl.
      reflexivity.
Qed.

End ShapingProperties.

Lemma show_answer_rules_witness :
  Forall (fun r => List.length r = 2) [[5%Z; 1%Z]; [3%Z; 2%Z]]
  /\ [[5%Z; 1%Z]; [3%Z; 2%Z]] <> []
  /\ (forall x, [[5%Z; 1%Z]; [3%Z; 2%Z]] <> [[x]])
  /\ show_answer (py := int_cells) (lit "SELECT COUNT(*), AGE FROM EMPLOYEE GROUP BY AGE")
       [[5%Z; 1%Z]; [3%Z; 2%Z]] =
     (Return tt, [st_subheader (lit "AI Answer:");
                  st_dataframe (@Build_DataFrame int_cells [lit "Column_1"; lit "Column_2"]
                                  [[5%Z; 1%Z]; [3%Z; 2%Z]])]).
Proof.
  assert (H1 : Forall (fun r : list Z => List.length r = 2) [[5%Z; 1%Z]; [3%Z; 2%Z]])
    by (repeat constructor).
  assert (H2 : [[5%Z; 1%Z]; [3%Z; 2%Z]] <> @nil (list Z)) by discriminate.
  assert (H3 : forall x : Z, [[5%Z; 1%Z]; [3%Z; 2%Z]] <> [[x]]) by (intros x; discriminate).
  split; [exact H1|]. split; [exact H2|]. split; [exact H3|].
  exact (proj2 (proj2 (@show_answer_rules int_cells
                         (lit "SELECT COUNT(*), AGE FROM EMPLOYEE GROUP BY AGE")
                         [[5%Z; 1%Z]; [3%Z; 2%Z]] 2 H1)) H2 H3).
Defined.

(** A statement that starts with SELECT * FROM EMPLOYEE and rows of ten
    values: no table is shown, pandas raises. *)
Lemma select_star_join_raises :
  startswith (lit "select * from employee") (lower (lit "SELECT * FROM EMPLOYEE, (SELECT 1)")) = true
  /\ show_answer (py := int_cells) (lit "SELECT * FROM EMPLOYEE, (SELECT 1)")
       [[1; 2; 3; 4; 5; 6; 7; 8; 9; 1]%Z; [2; 2; 3; 4; 5; 6; 7; 8; 9; 1]%Z] =
     (Raise (ValueError (lit "9 columns passed, passed data had 10 columns")),
      [st_subheader (lit "AI Answer:")]).
Proof. split; reflexivity. Qed.

(** ** Deletion by name *)

Lemma str_eqb_eq (a b : str) : str_eqb a b = true <-> a = b.
Proof.
  revert b; induction a as [|x a IH]; intros [|y b]; cbn [str_eqb];
    try (split; [discriminate | congruence]); [tauto|].
  rewrite andb_true_iff, Ascii.eqb_eq, IH. split; [intros [-> ->]; reflexivity | now intros [= -> ->]].
Qed.

Section DeletionProperties.

Context {py : Python}.

Lemma filter_none {A} (f : A -> bool) (l : list A) :
  (forall x, In x l -> f x = false) ->
  filter f l = [] /\ filter (fun x => negb (f x)) l = l.
Proof.
  induction l as [|x l IH]; intros H; [now split|].
  cbn [filter]. rewrite (H x (or_introl eq_refl)). cbn [negb].
  destruct IH as [-> ->]; [intros y Hy; apply H; now right | now split].
Qed.

(** C9: a name that no row carries, on a connection that accepts the
    statement. [delete_employee] runs the DELETE and commits, shows the
    "No employee found" warning and returns False, and the table is as
    before: no error notice, and not the True of a deletion. *)
Theorem delete_employee_name_not_found (conn : Crud.connection) (employee_name : str) :
  Crud.refuses conn = None ->
  (forall e, In e (Crud.EMPLOYEE conn) -> Crud.NAME e <> employee_name) ->
  Crud.delete_employee conn None (Some employee_name) =
  (Return (false, conn),
   [cur_execute (lit "DELETE FROM EMPLOYEE WHERE NAME = ?") [employee_name];
    conn_commit;
    st_warning (lit "No employee found with Name '" ++ employee_name ++ lit "'.")]).
Proof.
  intros Hok Hno. destruct conn as [table refuses]. cbn in Hok, Hno. subst refuses.
  destruct (@filter_none _ (Crud.selected (Crud.by_name employee_name)) table) as [H1 H2].
  { intros e He. cbn. destruct (str_eqb (Crud.NAME e) employee_name) eqn:E; [|reflexivity].
    apply str_eqb_eq in E. now elim (Hno e He). }
  unfold Crud.delete_employee, Crud.execute_delete. cbn [Crud.refuses Crud.EMPLOYEE].
  rewrite H1, H2. reflexivity.
Qed.

End DeletionProperties.

Lemma delete_employee_name_not_found_witness :
  Crud.refuses one_employee = None
  /\ (forall e, In e (Crud.EMPLOYEE one_employee) -> Crud.NAME e <> lit "Omid")
  /\ Crud.delete_employee one_employee None (Some (lit "Omid")) =
     (Return (false, one_employee),
      [cur_execute (lit "DELETE FROM EMPLOYEE WHERE NAME = ?") [lit "Omid"];
       conn_commit;
       st_warning (lit "No employee found with Name 'Omid'.")]).
Proof.
  assert (H : forall e, In e (Crud.EMPLOYEE one_employee) -> Crud.NAME e <> lit "Omid").
  { intros e [<- | []]. discriminate. }
  split; [reflexivity|]. split; [exact H|].
  exact (@delete_employee_name_not_found int_cells one_employee (lit "Omid") eq_refl H).
Defined.

(** * Further properties *)

(** ** The model client, for every endpoint *)

Lemma total_backoff (delay : Z) (k : nat) :
  total (backoff delay k) = (delay * (2 ^ Z.of_nat k - 1))%Z.
Proof.
  revert delay; induction k as [|k IH]; intros delay; [cbn; lia|].
  rewrite backoff_S. unfold total in *. cbn [fold_right]. rewrite IH.
  rewrite Nat2Z.inj_succ, Z.pow_succ_r by lia. lia.
Qed.

Section ClientExtras.

Context {py : Python}.
Variable ep : endpoint.
Variables question system_prompt : str.

(** X1: when [time.sleep] accepts every delay the schedule can reach
    ([initial_delay] doubled fewer than [max_retries - 1] times),
    [get_llm_response] returns a text, whatever the endpoint does. It
    has then called the endpoint at most [max_retries] times. Calls and
    pauses alternate, first and last a call: the flow is suspended
    between two calls and nowhere else, for [initial_delay] the first
    time and twice as long each time after, and every delay slept is
    one [time.sleep] accepts. *)
Theorem get_llm_response_always_returns (max_retries initial_delay : Z) :
  (forall i : nat, (Z.of_nat i + 1 < max_retries)%Z ->
     time_sleep_accepts (initial_delay * 2 ^ Z.of_nat i) = true) ->
  exists text t,
    get_llm_response ep question system_prompt max_retries initial_delay =
    Some (Return text, t)
    /\ count_calls t <= Z.to_nat max_retries
    /\ sleeps t =
       map (fun i => (initial_delay * 2 ^ Z.of_nat i)%Z) (seq 0 (pred (count_calls t)))
    /\ pace t = match count_calls t with
                | O => []
                | S _ => calls_with_pauses (sleeps t)
                end
    /\ Forall (fun d => time_sleep_accepts d = true) (sleeps t).
Proof.
  intros Hok.
  destruct (@retry_loop_returns py ep (messages_of question system_prompt) max_retries
              (Z.to_nat max_retries) 0%Z initial_delay 0)
    as (text & t & Ht & Hc & _ & Hs & _).
  { rewrite Z.sub_0_r. lia. }
  rewrite Z.sub_0_r in Hc.
  exists text, t. split; [exact Ht|]. split; [exact Hc|]. split; [exact Hs|].
  split; [pose proof Ht as Hp; apply retry_loop_pace in Hp; exact (proj2 Hp)|].
  rewrite Hs. unfold backoff. apply Forall_forall. intros d Hd.
  apply in_map_iff in Hd as (i & <- & Hi). apply in_seq in Hi.
  apply Hok. lia.
Qed.

(** X2: with the defaults the calling flow is never suspended for more
    than 2 + 4 + ... + 512 = 1022 seconds in all. *)
Theorem get_llm_response_default_sleep_bound :
  exists text t,
    get_llm_response ep question system_prompt 10 2 = Some (Return text, t)
    /\ count_calls t <= 10
    /\ (0 <= total (sleeps t) <= 1022)%Z.
Proof.
  destruct (@retry_loop_returns py ep (messages_of question system_prompt) 10
              10 0%Z 2%Z 0)
    as (text & t & Ht & Hc & _ & Hs & _); [cbn; lia|].
  exists text, t. split; [exact Ht|]. cbn in Hc. split; [exact Hc|].
  rewrite Hs, total_backoff.
  assert (H9 : (2 ^ Z.of_nat (pred (count_calls t)) <= 2 ^ 9)%Z)
    by (apply Z.pow_le_mono_r; lia).
  assert (H0 : (0 < 2 ^ Z.of_nat (pred (count_calls t)))%Z)
    by (apply Z.pow_pos_nonneg; lia).
  change (2 ^ 9)%Z with 512%Z in H9. lia.
Qed.

(** X3: the text returned is of one of three kinds: what the endpoint
    returned on the last call made; a text that starts with "Error:
    Could not get response from LLM", after at least one call; or,
    with no budget and no call, the fallback text. *)
Theorem get_llm_response_result_kinds (max_retries initial_delay : Z) :
  exists text t,
    get_llm_response ep question system_prompt max_retries initial_delay =
    Some (Return text, t)
    /\ (1 <= count_calls t /\ ep (pred (count_calls t)) = Return text
        \/ 1 <= count_calls t /\ startswith llm_error_marker text = true
        \/ (max_retries <= 0)%Z /\ t = []
           /\ text = lit "Error: Failed to get LLM response.").
Proof.
  destruct (@retry_loop_returns py ep (messages_of question system_prompt) max_retries
              (Z.to_nat max_retries) 0%Z initial_delay 0)
    as (text & t & Ht & _ & _ & _ & Hk).
  { rewrite Z.sub_0_r. lia. }
  exists text, t. split; [exact Ht|].
  destruct Hk as [[Hk ?] | [[Hk ?] | (-> & -> & ?)]]; [left | right; left | right; right];
    now repeat split.
Qed.

End ClientExtras.

Lemma get_llm_response_always_returns_witness :
  (forall i : nat, (Z.of_nat i + 1 < 3)%Z -> time_sleep_accepts (5 * 2 ^ Z.of_nat i) = true)
  /\ exists text t,
       get_llm_response (py := int_cells) (throttled 2 (lit "busy") (answering (lit "SELECT 1")))
         (lit "How many?") prompt_text 3 5 = Some (Return text, t)
       /\ pace t = match count_calls t with
                   | O => []
                   | S _ => calls_with_pauses (sleeps t)
                   end
       /\ Forall (fun d => time_sleep_accepts d = true) (sleeps t).
Proof.
  assert (H : forall i : nat, (Z.of_nat i + 1 < 3)%Z ->
                time_sleep_accepts (5 * 2 ^ Z.of_nat i) = true).
  { intros [|[|i]] Hi; [reflexivity | reflexivity | lia]. }
  split; [exact H|].
  destruct (@get_llm_response_always_returns int_cells
              (throttled 2 (lit "busy") (answering (lit "SELECT 1")))
              (lit "How many?") prompt_text 3 5 H)
    as (text & t & Ht & _ & _ & Hp & Hf).
  exists text, t. split; [exact Ht|]. split; [exact Hp | exact Hf].
Defined.

(** ** The executor, statement by statement *)

Section ExecutorExtras.

Context {py : Python}.
Variable eng : engine.
Variables sql db : str.

(** X4: when [cur.execute] raises, nothing is fetched and nothing is
    committed, and the connection is closed. A [sqlite3.Error] comes
    back as the text "Error executing SQL query: ..." with its message;
    any other exception leaves the function. *)
Theorem execute_sql_query_failed_statement (e : exn) :
  connecting eng db = Return tt ->
  executing eng db sql = Raise e ->
  execute_sql_query eng sql db =
  (match e with
   | sqlite3_Error d => Return (ErrorText (lit "Error executing SQL query: " ++ d))
   | _ => Raise e
   end,
   [sqlite3_connect db; cur_execute sql []; conn_close]).
Proof.
  intros Hc He. unfold execute_sql_query.
  rewrite Hc, bind_call_return, try_finally_emit, He, bind_call_raise.
  now destruct e.
Qed.

(** X5: when the statement ran and its rows were fetched but
    [conn.commit()] raises a [sqlite3.Error], the rows are not
    returned: the caller gets the error text. *)
Theorem execute_sql_query_failed_commit (rows : list (list cell)) (d : str) :
  connecting eng db = Return tt ->
  executing eng db sql = Return tt ->
  fetching eng db sql = Return rows ->
  committing eng db sql = Raise (sqlite3_Error d) ->
  execute_sql_query eng sql db =
  (Return (ErrorText (lit "Error executing SQL query: " ++ d)),
   [sqlite3_connect db; cur_execute sql []; cur_fetchall; conn_commit; conn_close]).
Proof.
  intros Hc He Hf Hk. unfold execute_sql_query.
  rewrite Hc, bind_call_return, try_finally_emit, He, bind_call_return, Hf,
    bind_call_return, Hk, bind_call_raise.
  reflexivity.
Qed.

(** What [execute_sql_query] asks of the outside, in every case. *)
Lemma execute_sql_query_log :
  let t := calls_out (execute_sql_query eng sql db) in
  count_calls t = 0 /\ sleeps t = []
  /\ (executed t = [] \/ executed t = [sql])
  /\ count_connects t = 1
  /\ count_closes t = match connecting eng db with Return _ => 1 | Raise _ => 0 end.
Proof.
  unfold execute_sql_query, calls_out.
  destruct (connecting eng db) as [[]|e0].
  2:{ rewrite bind_call_raise. cbn. auto. }
  rewrite bind_call_return, try_finally_emit.
  destruct (executing eng db sql) as [[]|e1].
  2:{ rewrite bind_call_raise. destruct e1; cbn; auto. }
  rewrite bind_call_return.
  destruct (fetching eng db sql) as [rows|e2].
  2:{ rewrite bind_call_raise. destruct e2; cbn; auto. }
  rewrite bind_call_return.
  destruct (committing eng db sql) as [[]|e3].
  2:{ rewrite bind_call_raise. destruct e3; cbn; auto. }
  rewrite bind_call_return. cbn. auto.
Qed.

End ExecutorExtras.

Lemma execute_sql_query_failed_statement_witness :
  connecting (value_answers (Return tt) (Raise (sqlite3_Error (lit "no such table: STAFF")))
                (Return []) (Return tt)) (lit "company.db") = Return tt
  /\ executing (value_answers (Return tt) (Raise (sqlite3_Error (lit "no such table: STAFF")))
                  (Return []) (Return tt)) (lit "company.db") (lit "SELECT * FROM STAFF")
     = Raise (sqlite3_Error (lit "no such table: STAFF"))
  /\ execute_sql_query
       (value_answers (Return tt) (Raise (sqlite3_Error (lit "no such table: STAFF")))
          (Return []) (Return tt)) (lit "SELECT * FROM STAFF") (lit "company.db")
     = (Return (ErrorText (lit "Error executing SQL query: no such table: STAFF")),
        [sqlite3_connect (lit "company.db"); cur_execute (lit "SELECT * FROM STAFF") [];
         conn_close]).
Proof.
  split; [reflexivity|]. split; [reflexivity|].
  exact (@execute_sql_query_failed_statement py_values
           (value_answers (Return tt) (Raise (sqlite3_Error (lit "no such table: STAFF")))
              (Return []) (Return tt))
           (lit "SELECT * FROM STAFF") (lit "company.db")
           (sqlite3_Error (lit "no such table: STAFF")) eq_refl eq_refl).
Defined.

Lemma execute_sql_query_failed_commit_witness :
  connecting (value_answers (Return tt) (Return tt) (Return [[v_int 2]])
                (Raise (sqlite3_Error (lit "database is locked")))) (lit "company.db") = Return tt
  /\ executing (value_answers (Return tt) (Return tt) (Return [[v_int 2]])
                  (Raise (sqlite3_Error (lit "database is locked"))))
       (lit "company.db") (lit "SELECT COUNT(*) FROM EMPLOYEE") = Return tt
  /\ fetching (value_answers (Return tt) (Return tt) (Return [[v_int 2]])
                 (Raise (sqlite3_Error (lit "database is locked"))))
       (lit "company.db") (lit "SELECT COUNT(*) FROM EMPLOYEE") = Return [[v_int 2]]
  /\ committing (value_answers (Return tt) (Return tt) (Return [[v_int 2]])
                   (Raise (sqlite3_Error (lit "database is locked"))))
       (lit "company.db") (lit "SELECT COUNT(*) FROM EMPLOYEE")
     = Raise (sqlite3_Error (lit "database is locked"))
  /\ fst (execute_sql_query
            (value_answers (Return tt) (Return tt) (Return [[v_int 2]])
               (Raise (sqlite3_Error (lit "database is locked"))))
            (lit "SELECT COUNT(*) FROM EMPLOYEE") (lit "company.db"))
     = Return (ErrorText (lit "Error executing SQL query: database is locked")).
Proof.
  repeat (split; [reflexivity|]).
  now rewrite (@execute_sql_query_failed_commit py_values
           (value_answers (Return tt) (Return tt) (Return [[v_int 2]])
              (Raise (sqlite3_Error (lit "database is locked"))))
           (lit "SELECT COUNT(*) FROM EMPLOYEE") (lit "company.db")
           [[v_int 2]] (lit "database is locked") eq_refl eq_refl eq_refl eq_refl).
Defined.

(** ** The handler, for every endpoint and store *)

Section HandlerExtras.

Context {py : Python}.

Lemma count_connects_app (t t' : list event) :
  count_connects (t ++ t') = count_connects t + count_connects t'.
Proof.
  induction t as [|e t IH]; [reflexivity|].
  destruct e; simpl; rewrite ?IH; reflexivity.
Qed.

Lemma count_closes_app (t t' : list event) :
  count_closes (t ++ t') = count_closes t + count_closes t'.
Proof.
  induction t as [|e t IH]; [reflexivity|].
  destruct e; simpl; rewrite ?IH; reflexivity.
Qed.

(** A log of notices holds no call to the model, no sleep and nothing
    asked of sqlite3. *)
Lemma notices_are_quiet (t : list event) :
  forallb is_notice t = true ->
  count_calls t = 0 /\ sleeps t = [] /\ executed t = []
  /\ count_connects t = 0 /\ count_closes t = 0
  /\ forallb (fun e => negb (touches_store e)) t = true.
Proof.
  induction t as [|e t IH]; [now repeat split|].
  cbn [forallb]. intros H. apply andb_true_iff in H as [He Ht].
  destruct (IH Ht) as (? & ? & ? & ? & ? & ?).
  destruct e; try discriminate; cbn; now repeat split.
Qed.

Lemma bind_log {A B} (m : io A) (k : A -> io B) :
  calls_out (x <- m ;; k x) =
  calls_out m ++ match fst m with Return a => calls_out (k a) | Raise _ => [] end.
Proof.
  destruct m as [[a|e] t]; unfold bind, calls_out; cbn.
  - now destruct (k a).
  - now rewrite app_nil_r.
Qed.

Lemma show_answer_notices (sql : str) (rows : list (list cell)) :
  forallb is_notice (calls_out (show_answer sql rows)) = true.
Proof.
  destruct rows as [|row0 rest]; [reflexivity|].
  destruct row0 as [|x [|y row0]]; destruct rest as [|r1 rest];
    try reflexivity;
    unfold show_answer, pd_DataFrame;
    destruct (startswith _ (lower sql));
    match goal with |- context [if ?c then ret _ else raise _] => destruct c end;
    reflexivity.
Qed.

(** X6: showing the rows only shows: every call [show_answer] makes is
    a call to Streamlit; the store and the model are left alone. *)
Theorem show_answer_only_shows (sql : str) (rows : list (list cell)) :
  forallb is_notice (calls_out (show_answer sql rows)) = true
  /\ forallb (fun e => negb (touches_store e)) (calls_out (show_answer sql rows)) = true
  /\ count_calls (calls_out (show_answer sql rows)) = 0.
Proof.
  destruct (notices_are_quiet _ (show_answer_notices sql rows)) as (Hc & _ & _ & _ & _ & Hs).
  split; [apply show_answer_notices | now split].
Qed.

(** What follows the executor in [handle_response] only shows. *)
Lemma after_executor_notices (q : str) (data : fetched) :
  forallb is_notice
    (calls_out
       match data with
       | ErrorText text => emit (st_error text)
       | Rows rows =>
           if contains (lit "Error executing SQL query") (str_rows rows)
           then emit (st_error (str_rows rows))
           else show_answer q rows
       end) = true.
Proof.
  destruct data as [rows|text]; [|reflexivity].
  destruct (contains _ (str_rows rows)); [reflexivity | apply show_answer_notices].
Qed.

Lemma handle_response_log (eng : engine) (response : str) :
  let t := calls_out (handle_response eng response) in
  count_calls t = 0 /\ sleeps t = []
  /\ List.length (executed t) <= 1
  /\ count_connects t <= 1
  /\ count_closes t =
     match connecting eng (lit "company.db") with
     | Return _ => count_connects t
     | Raise _ => 0
     end.
Proof.
  unfold handle_response.
  destruct (contains llm_error_marker (extract_sql response)).
  { cbn. destruct (connecting eng _); repeat split; lia. }
  destruct (statement_keyword (extract_sql response)); cbn [negb].
  2:{ cbn. destruct (connecting eng _); repeat split; lia. }
  cbv zeta. rewrite bind_log.
  destruct (execute_sql_query_log eng (extract_sql response) (lit "company.db"))
    as (Hc & Hs & He & Hn & Hk).
  set (m := execute_sql_query eng (extract_sql response) (lit "company.db")) in *.
  assert (Hq : forallb is_notice
                 match fst m with
                 | Return data =>
                     calls_out
                       match data with
                       | ErrorText text => emit (st_error text)
                       | Rows rows =>
                           if contains (lit "Error executing SQL query") (str_rows rows)
                           then emit (st_error (str_rows rows))
                           else show_answer (extract_sql response) rows
                       end
                 | Raise _ => []
                 end = true).
  { destruct (fst m); [apply after_executor_notices | reflexivity]. }
  destruct (notices_are_quiet _ Hq) as (Hc' & Hs' & He' & Hn' & Hk' & _).
  rewrite count_calls_app, sleeps_app, executed_app, count_connects_app, count_closes_app,
    Hc, Hs, Hn, Hk, Hc', Hs', He', Hn', Hk', app_nil_r.
  repeat split; try lia.
  - destruct He as [-> | ->]; cbn; lia.
  - destruct (connecting eng _); lia.
Qed.

(** X7: whatever the store answers, handling a response calls no model
    and sleeps never; it opens at most one connection and hands it at
    most one statement; and a connection that was opened is closed,
    also when an exception leaves the handler. *)
Theorem handle_response_store_discipline (eng : engine) (response : str) :
  let t := calls_out (handle_response eng response) in
  count_calls t = 0 /\ sleeps t = []
  /\ List.length (executed t) <= 1
  /\ count_connects t <= 1
  /\ count_closes t =
     match connecting eng (lit "company.db") with
     | Return _ => count_connects t
     | Raise _ => 0
     end.
Proof. exact (handle_response_log eng response). Qed.

(** The retry loop asks nothing of sqlite3. *)
Lemma retry_loop_no_statement (ep : endpoint) (messages : list (str * str))
    (max_retries : Z) (fuel : nat) : forall (retries delay : Z) (n : nat) r t,
  retry_loop ep messages max_retries fuel retries delay n = Some (r, t) ->
  executed t = [].
Proof.
  induction fuel as [|fuel IH]; intros retries delay n r t; cbn [retry_loop];
    destruct (retries <? max_retries)%Z; try discriminate;
    try (intros [= <- <-]; reflexivity).
  destruct (ep n) as [content|[d|d|d|d]]; try (intros [= <- <-]; reflexivity).
  destruct (retries + 1 <? max_retries)%Z; [|intros [= <- <-]; reflexivity].
  destruct (retry_loop ep messages max_retries fuel _ _ _) as [[r' t']|] eqn:E;
    [|discriminate].
  intros [= <- <-]. unfold attempt_events. cbn [app executed]. exact (IH _ _ _ _ _ E).
Qed.

(** X8: a statement that sqlite3 rejects is reported with the message
    of sqlite3 and is not tried again: one statement, the connection
    closed, the error notice, and no "AI Answer" heading. *)
Theorem handle_response_rejected_statement (eng : engine) (response d : str) :
  contains llm_error_marker (extract_sql response) = false ->
  statement_keyword (extract_sql response) = true ->
  connecting eng (lit "company.db") = Return tt ->
  executing eng (lit "company.db") (extract_sql response) = Raise (sqlite3_Error d) ->
  handle_response eng response =
  (Return tt,
   [sqlite3_connect (lit "company.db"); cur_execute (extract_sql response) []; conn_close;
    st_error (lit "Error executing SQL query: " ++ d)]).
Proof.
  intros Hm Hk Hc He. unfold handle_response. rewrite Hm, Hk. cbn [negb].
  unfold execute_sql_query.
  rewrite Hc, bind_call_return, try_finally_emit, He, bind_call_raise.
  reflexivity.
Qed.

(** X9: rows whose [str] holds the text "Error executing SQL query" are
    taken for a failure (line 308): their [str] is shown as an error
    and no answer is shown. *)
Theorem handle_response_rows_taken_for_error (eng : engine) (response : str)
    (rows : list (list cell)) :
  contains llm_error_marker (extract_sql response) = false ->
  statement_keyword (extract_sql response) = true ->
  connecting eng (lit "company.db") = Return tt ->
  executing eng (lit "company.db") (extract_sql response) = Return tt ->
  fetching eng (lit "company.db") (extract_sql response) = Return rows ->
  committing eng (lit "company.db") (extract_sql response) = Return tt ->
  contains (lit "Error executing SQL query") (str_rows rows) = true ->
  handle_response eng response =
  (Return tt,
   [sqlite3_connect (lit "company.db"); cur_execute (extract_sql response) [];
    cur_fetchall; conn_commit; conn_close; st_error (str_rows rows)]).
Proof.
  intros Hm Hk Hc He Hf Hcm Hr. unfold handle_response. rewrite Hm, Hk. cbn [negb].
  unfold execute_sql_query.
  rewrite Hc, bind_call_return, try_finally_emit, He, bind_call_return, Hf,
    bind_call_return, Hcm, bind_call_return.
  cbn -[contains lit]. now rewrite Hr.
Qed.

(** X10: pressing "Ask AI" always comes to an end, with a result or an
    exception: at most 10 calls to the model, at most one statement
    executed. Without the button nothing happens. *)
Theorem ask_ai_always_answers (ep : endpoint) (eng : engine)
    (ask_ai_button : bool) (ai_question : str) :
  (exists r t,
      ask_ai ep eng ask_ai_button ai_question = Some (r, t)
      /\ count_calls t <= 10
      /\ List.length (executed t) <= 1)
  /\ ask_ai ep eng false ai_question = Some (Return tt, []).
Proof.
  split; [|reflexivity].
  unfold ask_ai. destruct ask_ai_button; cbn [andb].
  2:{ eexists _, _. split; [reflexivity|]. cbn. lia. }
  destruct (truthy ai_question); cbn [negb].
  2:{ eexists _, _. split; [reflexivity|]. cbn. lia. }
  destruct (@retry_loop_returns py ep (messages_of ai_question prompt_text) 10 10 0%Z 2%Z 0)
    as (text & t & Ht & Hc & _ & Hs & _); [cbn; lia|].
  unfold get_llm_response. change (Z.to_nat 10) with 10. rewrite Ht.
  pose proof (handle_response_log eng text) as (Hc' & _ & He' & _).
  pose proof (retry_loop_no_statement _ _ _ _ _ _ _ Ht) as He.
  destruct (handle_response eng text) as [r' t'] eqn:Eh.
  unfold calls_out in *. cbn [snd] in *. cbn in Hc.
  exists r', ([st_info (lit "Getting answer from AI...")] ++ t ++ t'). split.
  { unfold bind, emit. rewrite Eh. reflexivity. }
  rewrite !count_calls_app, !executed_app, Hc', He. cbn. lia.
Qed.

End HandlerExtras.

Lemma handle_response_rejected_statement_witness :
  contains llm_error_marker (extract_sql (lit "SELECT * FROM STAFF")) = false
  /\ statement_keyword (extract_sql (lit "SELECT * FROM STAFF")) = true
  /\ handle_response
       (value_answers (Return tt) (Raise (sqlite3_Error (lit "no such table: STAFF")))
          (Return []) (Return tt)) (lit "SELECT * FROM STAFF")
     = (Return tt,
        [sqlite3_connect (lit "company.db"); cur_execute (lit "SELECT * FROM STAFF") [];
         conn_close; st_error (lit "Error executing SQL query: no such table: STAFF")]).
Proof.
  split; [reflexivity|]. split; [reflexivity|].
  exact (@handle_response_rejected_statement py_values
           (value_answers (Return tt) (Raise (sqlite3_Error (lit "no such table: STAFF")))
              (Return []) (Return tt))
           (lit "SELECT * FROM STAFF") (lit "no such table: STAFF")
           eq_refl eq_refl eq_refl eq_refl).
Defined.

Lemma handle_response_rows_taken_for_error_witness :
  contains (lit "Error executing SQL query")
    (str_rows (Python := py_values) [[v_str (lit "Error executing SQL query")]]) = true
  /\ handle_response (value_store [[v_str (lit "Error executing SQL query")]])
       (lit "SELECT NAME FROM EMPLOYEE WHERE ID = 3")
     = (Return tt,
        [sqlite3_connect (lit "company.db");
         cur_execute (lit "SELECT NAME FROM EMPLOYEE WHERE ID = 3") [];
         cur_fetchall; conn_commit; conn_close;
         st_error (lit "[('Error executing SQL query',)]")]).
Proof.
  split; [reflexivity|].
  exact (@handle_response_rows_taken_for_error py_values
           (value_store [[v_str (lit "Error executing SQL query")]])
           (lit "SELECT NAME FROM EMPLOYEE WHERE ID = 3")
           [[v_str (lit "Error executing SQL query")]]
           eq_refl eq_refl eq_refl eq_refl eq_refl eq_refl eq_refl).
Defined.

(** ** The candidate *)

Lemma last_default {A} (l : list A) (d d' : A) : l <> [] -> last l d = last l d'.
Proof.
  induction l as [|a [|b l] IH]; intros H; [congruence | reflexivity |].
  change (last (b :: l) d = last (b :: l) d'). apply IH. discriminate.
Qed.

Lemma rstrip_ends (x : str) (c : ascii) (y : str) :
  rstrip x = c :: y -> is_space (last (c :: y) c) = false.
Proof.
  revert c y; induction x as [|a x IH]; intros c y; [discriminate|].
  rewrite rstrip_cons. destruct (forallb is_space (a :: x)) eqn:E; [discriminate|].
  intros [= <- <-].
  destruct (rstrip x) as [|b z] eqn:Er.
  - cbn [last]. cbn [forallb] in E.
    destruct (is_space a) eqn:Ea; [|reflexivity].
    cbn [andb] in E. rewrite <- forallb_rstrip, Er in E. discriminate.
  - change (last (a :: b :: z) a) with (last (b :: z) a).
    rewrite (@last_default _ (b :: z) a b) by discriminate.
    now apply IH.
Qed.

(** X11: the candidate has no whitespace at either end, whatever the
    response is: stripping it again changes nothing. *)
Theorem extract_sql_has_no_margin (response : str) :
  strip (extract_sql response) = extract_sql response
  /\ forall c rest,
       extract_sql response = c :: rest ->
       is_space c = false /\ is_space (last (c :: rest) c) = false.
Proof.
  assert (H : exists x, extract_sql response = strip x).
  { unfold extract_sql. destruct (search _ _ _) as [g|]; eauto. }
  destruct H as [x ->]. split; [apply strip_idempotent|].
  intros c rest E. split; [|exact (rstrip_ends _ E)].
  unfold strip in E.
  destruct (lstrip_head x) as [Hn | (d & r & Hd & Hsp)].
  - rewrite Hn in E. discriminate.
  - rewrite Hd, rstrip_cons in E.
    destruct (forallb is_space (d :: r)); [discriminate|]. now injection E as <- _.
Qed.

(** ** The database functions *)

Section CrudExtras.

Context {py : Python}.

Import Crud.

Lemma selected_by_id (i : Z) (e : employee) : selected (by_id i) e = true <-> ID e = i.
Proof. cbn. apply Z.eqb_eq. Qed.

Lemma selected_by_name (n : str) (e : employee) :
  selected (by_name n) e = true <-> NAME e = n.
Proof. cbn. apply str_eqb_eq. Qed.

Lemma filter_app_one {A} (f : A -> bool) (l : list A) (x : A) :
  filter f (l ++ [x]) = filter f l ++ (if f x then [x] else []).
Proof. rewrite filter_app. reflexivity. Qed.

Lemma add_then_queries (conn : connection) (rowid : Z) (d : employee_data) :
  refuses conn = None ->
  (forall e, In e (EMPLOYEE conn) -> ID e <> rowid) ->
  exists conn' params,
    add_employee conn rowid d =
      (Return (true, conn'), [cur_execute insert_sql params; conn_commit])
    /\ search_employee conn' (Some rowid) None =
       (Return [inserted rowid d],
        [cur_execute (lit "SELECT * FROM EMPLOYEE WHERE ID = ?") [str_of_int rowid];
         cur_fetchall])
    /\ get_all_employees conn' =
       (Return (EMPLOYEE conn ++ [inserted rowid d]),
        [cur_execute (lit "SELECT * FROM EMPLOYEE") []; cur_fetchall]).
Proof.
  intros Hok Hfresh. destruct conn as [table r]. cbn in Hok, Hfresh. subst r.
  eexists _, _. split; [reflexivity|].
  unfold search_employee, get_all_employees, execute_select.
  cbn [refuses EMPLOYEE]. rewrite filter_app_one.
  assert (Hnone : filter (selected (by_id rowid)) table = []).
  { apply (@filter_none _ (selected (by_id rowid)) table). intros e He.
    destruct (selected (by_id rowid) e) eqn:E; [|reflexivity].
    apply selected_by_id in E. now elim (Hfresh e He). }
  rewrite Hnone.
  assert (selected (by_id rowid) (inserted rowid d) = true) as ->
    by (apply selected_by_id; reflexivity).
  assert (Hall : forall l : list employee, filter (fun _ => true) l = l)
    by (induction l as [|a l IH]; cbn; congruence).
  split; cbn; rewrite ?Hall; reflexivity.
Qed.


(** X12: a row that was added is found again. On a connection that
    accepts the statement, and with an ID that no row has yet,
    [add_employee] returns True after the INSERT and the commit; a
    search by that ID then gives exactly the row inserted, equal in
    every field, and [get_all_employees] gives the earlier rows followed
    by it. *)
Theorem add_employee_round_trip (conn : connection) (rowid : Z) (d : employee_data) :
  refuses conn = None ->
  (forall e, In e (EMPLOYEE conn) -> ID e <> rowid) ->
  exists conn' params,
    add_employee conn rowid d =
      (Return (true, conn'), [cur_execute insert_sql params; conn_commit])
    /\ search_employee conn' (Some rowid) None =
       (Return [inserted rowid d],
        [cur_execute (lit "SELECT * FROM EMPLOYEE WHERE ID = ?") [str_of_int rowid];
         cur_fetchall])
    /\ get_all_employees conn' =
       (Return (EMPLOYEE conn ++ [inserted rowid d]),
        [cur_execute (lit "SELECT * FROM EMPLOYEE") []; cur_fetchall]).
Proof. exact (@add_then_queries conn rowid d). Qed.

(** X13: an engine that refuses the statement. Each of the four
    functions reports the message of sqlite3 with [st.error], commits
    nothing and leaves the table as it is; [add_employee] and
    [delete_employee] return False, the two queries return no rows. *)
Theorem refused_statements_are_reported (conn : connection) (d : str) :
  refuses conn = Some d ->
  (forall rowid data,
      exists params,
        add_employee conn rowid data =
        (Return (false, conn),
         [cur_execute insert_sql params; st_error (lit "Error adding employee: " ++ d)]))
  /\ (forall n,
        delete_employee conn None (Some n) =
        (Return (false, conn),
         [cur_execute (lit "DELETE FROM EMPLOYEE WHERE NAME = ?") [n];
          st_error (lit "Error deleting employee: " ++ d)]))
  /\ (forall i,
        delete_employee conn (Some i) None =
        (Return (false, conn),
         [cur_execute (lit "DELETE FROM EMPLOYEE WHERE ID = ?") [str_of_int i];
          st_error (lit "Error deleting employee: " ++ d)]))
  /\ (forall n,
        search_employee conn None (Some n) =
        (Return [],
         [cur_execute (lit "SELECT * FROM EMPLOYEE WHERE NAME = ?") [n];
          st_error (lit "Error searching employee: " ++ d)]))
  /\ get_all_employees conn =
     (Return [],
      [cur_execute (lit "SELECT * FROM EMPLOYEE") [];
       st_error (lit "Error retrieving data: " ++ d)]).
Proof.
  intros Hr.
  unfold add_employee, delete_employee, search_employee, get_all_employees,
    execute_insert, execute_delete, execute_select.
  rewrite Hr. repeat split; intros; try eexists; reflexivity.
Qed.

(** The DELETE and what is left, for either criterion. *)
Lemma delete_employee_selected (conn : connection) (employee_id : option Z)
    (employee_name : option str) (p : parameter) (sql : str) :
  match employee_id, employee_name with
  | Some i, _ => Some (lit "DELETE FROM EMPLOYEE WHERE ID = ?", by_id i)
  | None, Some n => Some (lit "DELETE FROM EMPLOYEE WHERE NAME = ?", by_name n)
  | None, None => None
  end = Some (sql, p) ->
  refuses conn = None ->
  (exists e, In e (EMPLOYEE conn) /\ selected p e = true) ->
  delete_employee conn employee_id employee_name =
  (Return (true, {| EMPLOYEE := filter (fun e => negb (selected p e)) (EMPLOYEE conn);
                    refuses := None |}),
   [cur_execute sql [str_of_parameter p]; conn_commit]).
Proof.
  intros Ht Hr (e & He & Hs). unfold delete_employee, execute_delete.
  rewrite Ht, Hr.
  assert (Hpos : (0 <? Z.of_nat (List.length (filter (selected p) (EMPLOYEE conn))))%Z = true).
  { apply Z.ltb_lt.
    assert (Hin : In e (filter (selected p) (EMPLOYEE conn))) by (apply filter_In; now split).
    destruct (filter (selected p) (EMPLOYEE conn)); [destruct Hin | cbn; lia]. }
  cbn -[Z.ltb Z.of_nat]. rewrite Hpos. reflexivity.
Qed.

(** X14: deleting by a name that rows carry removes every row of that
    name and no other: [delete_employee] returns True without a
    warning, the rows left are those of another name, in their order,
    and a search by the name then finds nothing. *)
Theorem delete_employee_by_name_removes_namesakes (conn : connection) (n : str) :
  refuses conn = None ->
  (exists e, In e (EMPLOYEE conn) /\ NAME e = n) ->
  exists conn',
    delete_employee conn None (Some n) =
      (Return (true, conn'),
       [cur_execute (lit "DELETE FROM EMPLOYEE WHERE NAME = ?") [n]; conn_commit])
    /\ EMPLOYEE conn' = filter (fun e => negb (str_eqb (NAME e) n)) (EMPLOYEE conn)
    /\ (forall e, In e (EMPLOYEE conn') <-> In e (EMPLOYEE conn) /\ NAME e <> n)
    /\ search_employee conn' None (Some n) =
       (Return [],
        [cur_execute (lit "SELECT * FROM EMPLOYEE WHERE NAME = ?") [n]; cur_fetchall]).
Proof.
  intros Hr (e & He & Hn).
  eexists. split.
  { apply (@delete_employee_selected conn None (Some n) (by_name n) _ eq_refl Hr).
    exists e. split; [exact He | now apply selected_by_name]. }
  cbn [EMPLOYEE refuses]. split; [reflexivity|]. split.
  - intros x. rewrite filter_In. cbn [selected].
    destruct (str_eqb (NAME x) n) eqn:E; cbn [negb].
    + apply str_eqb_eq in E. intuition congruence.
    + assert (NAME x <> n) by (intros H; apply str_eqb_eq in H; congruence). intuition.
  - unfold search_employee, execute_select. cbn [EMPLOYEE refuses].
    assert (Hnone : filter (selected (by_name n))
                      (filter (fun e0 => negb (selected (by_name n) e0)) (EMPLOYEE conn)) = []).
    { apply (@filter_none _ (selected (by_name n))). intros x Hx.
      apply filter_In in Hx as [_ Hx]. now apply negb_true_iff in Hx. }
    cbn. cbn in Hnone. rewrite Hnone. reflexivity.
Qed.

(** X15: deleting by ID a second time. After a deletion by an ID that
    a row has, the same call reports "No employee found with ID" and
    returns False, and the table stays as the first call left it. *)
Theorem delete_employee_by_id_twice (conn : connection) (i : Z) :
  refuses conn = None ->
  (exists e, In e (EMPLOYEE conn) /\ ID e = i) ->
  exists conn',
    delete_employee conn (Some i) None =
      (Return (true, conn'),
       [cur_execute (lit "DELETE FROM EMPLOYEE WHERE ID = ?") [str_of_int i]; conn_commit])
    /\ delete_employee conn' (Some i) None =
       (Return (false, conn'),
        [cur_execute (lit "DELETE FROM EMPLOYEE WHERE ID = ?") [str_of_int i]; conn_commit;
         st_warning (lit "No employee found with ID '" ++ str_of_int i ++ lit "'.")]).
Proof.
  intros Hr (e & He & Hi).
  eexists. split.
  { apply (@delete_employee_selected conn (Some i) None (by_id i) _ eq_refl Hr).
    exists e. split; [exact He | now apply selected_by_id]. }
  set (left := filter (fun e0 => negb (selected (by_id i) e0)) (EMPLOYEE conn)).
  destruct (@filter_none _ (selected (by_id i)) left) as [H1 H2].
  { intros x Hx. apply filter_In in Hx as [_ Hx]. now apply negb_true_iff in Hx. }
  unfold delete_employee, execute_delete. cbn [EMPLOYEE refuses].
  rewrite H1, H2. reflexivity.
Qed.

(** X16: a search by name gives the rows of that name and only those,
    in the order of the table, and shows nothing. *)
Theorem search_employee_by_name_finds (conn : connection) (n : str) :
  refuses conn = None ->
  exists rows,
    search_employee conn None (Some n) =
      (Return rows,
       [cur_execute (lit "SELECT * FROM EMPLOYEE WHERE NAME = ?") [n]; cur_fetchall])
    /\ rows = filter (fun e => str_eqb (NAME e) n) (EMPLOYEE conn)
    /\ forall e, In e rows <-> In e (EMPLOYEE conn) /\ NAME e = n.
Proof.
  intros Hr. eexists. split; [|split; [reflexivity|]].
  - unfold search_employee, execute_select. rewrite Hr. reflexivity.
  - intros e. rewrite filter_In, str_eqb_eq. reflexivity.
Qed.

End CrudExtras.

Lemma add_employee_round_trip_witness :
  Crud.refuses staff = None
  /\ (forall e, In e (Crud.EMPLOYEE staff) -> Crud.ID e <> 3%Z)
  /\ exists conn',
      fst (Crud.add_employee staff 3 newcomer) = Return (true, conn')
      /\ fst (Crud.search_employee conn' (Some 3%Z) None) = Return [Crud.inserted 3 newcomer]
      /\ fst (Crud.get_all_employees conn') = Return [sara; omid; Crud.inserted 3 newcomer].
Proof.
  assert (H : forall e, In e (Crud.EMPLOYEE staff) -> Crud.ID e <> 3%Z).
  { intros e [<- | [<- | []]]; discriminate. }
  split; [reflexivity|]. split; [exact H|].
  destruct (@add_employee_round_trip py_values staff 3 newcomer eq_refl H)
    as (conn' & params & Ha & Hs & Hg).
  exists conn'. rewrite Ha, Hs, Hg. now repeat split.
Defined.

Lemma refused_statements_are_reported_witness :
  Crud.refuses locked = Some (lit "database is locked")
  /\ Crud.get_all_employees locked =
     (Return [],
      [cur_execute (lit "SELECT * FROM EMPLOYEE") [];
       st_error (lit "Error retrieving data: database is locked")])
  /\ Crud.delete_employee locked None (Some (lit "Sara")) =
     (Return (false, locked),
      [cur_execute (lit "DELETE FROM EMPLOYEE WHERE NAME = ?") [lit "Sara"];
       st_error (lit "Error deleting employee: database is locked")]).
Proof.
  destruct (@refused_statements_are_reported py_values locked (lit "database is locked") eq_refl)
    as (_ & Hd & _ & _ & Hg).
  split; [reflexivity|]. split; [exact Hg | exact (Hd (lit "Sara"))].
Defined.

Lemma delete_employee_by_name_removes_namesakes_witness :
  Crud.refuses staff = None
  /\ (exists e, In e (Crud.EMPLOYEE staff) /\ Crud.NAME e = lit "Sara")
  /\ exists conn',
      fst (Crud.delete_employee staff None (Some (lit "Sara"))) = Return (true, conn')
      /\ Crud.EMPLOYEE conn' = [omid].
Proof.
  assert (H : exists e, In e (Crud.EMPLOYEE staff) /\ Crud.NAME e = lit "Sara").
  { exists sara. split; [now left | reflexivity]. }
  split; [reflexivity|]. split; [exact H|].
  destruct (@delete_employee_by_name_removes_namesakes py_values staff (lit "Sara") eq_refl H)
    as (conn' & Hd & He & _).
  exists conn'. rewrite Hd, He. now split.
Defined.

Lemma delete_employee_by_id_twice_witness :
  Crud.refuses staff = None
  /\ (exists e, In e (Crud.EMPLOYEE staff) /\ Crud.ID e = 2%Z)
  /\ exists conn',
      fst (Crud.delete_employee staff (Some 2%Z) None) = Return (true, conn')
      /\ fst (Crud.delete_employee conn' (Some 2%Z) None) = Return (false, conn').
Proof.
  assert (H : exists e, In e (Crud.EMPLOYEE staff) /\ Crud.ID e = 2%Z).
  { exists omid. split; [right; now left | reflexivity]. }
  split; [reflexivity|]. split; [exact H|].
  destruct (@delete_employee_by_id_twice py_values staff 2 eq_refl H) as (conn' & H1 & H2).
  exists conn'. rewrite H1, H2. now split.
Defined.

Lemma search_employee_by_name_finds_witness :
  Crud.refuses staff = None
  /\ fst (Crud.search_employee staff None (Some (lit "Omid"))) = Return [omid].
Proof.
  split; [reflexivity|].
  destruct (@search_employee_by_name_finds py_values staff (lit "Omid") eq_refl)
    as (rows & Hs & -> & _).
  now rewrite Hs.
Defined.

(** ** The connection of the page and the forms *)

Section FormExtras.

Context {py : Python}.
Variable int_cell : Z -> cell.
Variable text_cell : str -> cell.

Lemma fst_bind_return {A B} (a : A) (t : list event) (k : A -> io B) :
  fst (x <- (Return a, t) ;; k x) = fst (k a).
Proof. unfold bind. now destruct (k a). Qed.

Lemma show_rows_nine_wide (rows : list Crud.employee) :
  nine_wide rows -> rows <> [] ->
  show_rows int_cell text_cell rows =
  (Return tt,
   [st_dataframe {| columns := canonical_columns;
                    values := map (as_tuple int_cell text_cell) rows |}]).
Proof.
  intros Hw Hne. unfold show_rows, pd_DataFrame.
  rewrite (@widest_uniform py (map (as_tuple int_cell text_cell) rows) 9).
  - reflexivity.
  - destruct rows; [congruence | discriminate].
  - apply Forall_map. revert Hw. apply Forall_impl. intros e He.
    unfold as_tuple. cbn [List.length]. now rewrite He.
Qed.

(** X18: on a table whose rows all have their nine values, the roster
    never raises. On a connection that accepts the query it shows the
    whole table under the nine column names, or, for the empty table,
    the notice that the table is empty. *)
Theorem show_roster_shows_the_table (conn : Crud.connection) :
  nine_wide (Crud.EMPLOYEE conn) ->
  fst (show_roster int_cell text_cell conn) = Return tt
  /\ (Crud.refuses conn = None ->
      show_roster int_cell text_cell conn =
      (Return tt,
       [st_subheader (lit "Current Employee Roster");
        cur_execute (lit "SELECT * FROM EMPLOYEE") []; cur_fetchall;
        match Crud.EMPLOYEE conn with
        | [] => st_info (lit "The employee table is currently empty.")
        | _ :: _ =>
            st_dataframe {| columns := canonical_columns;
                            values := map (as_tuple int_cell text_cell) (Crud.EMPLOYEE conn) |}
        end])).
Proof.
  intros Hw. destruct conn as [table r]. cbn [Crud.EMPLOYEE Crud.refuses] in *.
  assert (Hall : forall l : list Crud.employee, filter (fun _ => true) l = l)
    by (induction l as [|a l IH]; cbn; congruence).
  assert (Hok : show_roster int_cell text_cell {| Crud.EMPLOYEE := table; Crud.refuses := None |} =
      (Return tt,
       [st_subheader (lit "Current Employee Roster");
        cur_execute (lit "SELECT * FROM EMPLOYEE") []; cur_fetchall;
        match table with
        | [] => st_info (lit "The employee table is currently empty.")
        | _ :: _ =>
            st_dataframe {| columns := canonical_columns;
                            values := map (as_tuple int_cell text_cell) table |}
        end])).
  { unfold show_roster, Crud.get_all_employees, Crud.execute_select.
    cbn [Crud.EMPLOYEE Crud.refuses]. rewrite Hall.
    destruct table as [|e table]; [reflexivity|].
    cbn -[show_rows]. rewrite show_rows_nine_wide by (assumption || discriminate).
    reflexivity. }
  split.
  - destruct r as [d|]; [reflexivity | now rewrite Hok].
  - intros ->. exact Hok.
Qed.

(** X19: when the engine refuses the query of the roster, the error is
    shown and, after it, the notice that the table is empty: no rows
    came back, whatever the table holds. *)
Theorem show_roster_when_refused (conn : Crud.connection) (d : str) :
  Crud.refuses conn = Some d ->
  show_roster int_cell text_cell conn =
  (Return tt,
   [st_subheader (lit "Current Employee Roster");
    cur_execute (lit "SELECT * FROM EMPLOYEE") [];
    st_error (lit "Error retrieving data: " ++ d);
    st_info (lit "The employee table is currently empty.")]).
Proof.
  intros Hr. unfold show_roster, Crud.get_all_employees, Crud.execute_select.
  rewrite Hr. reflexivity.
Qed.

(** X20: a search without a value (the ID chosen and 0 entered, or the
    name chosen and nothing entered) runs no query and shows two
    notices: the warning to provide a value and, after it, "No employee
    found matching your search criteria." *)
Theorem search_pressed_without_value (conn : Crud.connection) (search_by_option : str)
    (id_input : Z) (name_input : str) :
  (search_by_option = lit "ID" -> id_input = 0%Z) ->
  (search_by_option = lit "Name" -> name_input = []) ->
  search_pressed int_cell text_cell conn true search_by_option id_input name_input =
  (Return tt,
   [st_warning (lit "Please provide a value for search.");
    st_info (lit "No employee found matching your search criteria.")]).
Proof.
  intros Hi Hn. unfold search_pressed, chosen_id, chosen_name.
  destruct (str_eqb search_by_option (lit "ID")) eqn:E1.
  - apply str_eqb_eq in E1. rewrite (Hi E1). subst search_by_option. reflexivity.
  - destruct (str_eqb search_by_option (lit "Name")) eqn:E2; [|reflexivity].
    apply str_eqb_eq in E2. rewrite (Hn E2). reflexivity.
Qed.

(** X21: on a table whose rows all have their nine values, pressing
    "Search Employee" never raises, whatever is entered and whether the
    engine accepts the query. *)
Theorem search_pressed_never_raises (conn : Crud.connection) (search_button : bool)
    (search_by_option : str) (id_input : Z) (name_input : str) :
  nine_wide (Crud.EMPLOYEE conn) ->
  fst (search_pressed int_cell text_cell conn search_button search_by_option
         id_input name_input) = Return tt.
Proof.
  intros Hw.
  assert (Hf : forall f, nine_wide (filter f (Crud.EMPLOYEE conn))).
  { intros f. apply Forall_forall. intros e He. apply filter_In in He as [He _].
    revert e He. now apply Forall_forall. }
  assert (Hshow : forall rows, nine_wide rows ->
            fst match rows with
                | _ :: _ =>
                    emit (st_subheader (lit "Search Results:")) ;;
                    show_rows int_cell text_cell rows
                | [] => emit (st_info (lit "No employee found matching your search criteria."))
                end = Return tt).
  { intros [|e rows] Hr; [reflexivity|].
    now rewrite show_rows_nine_wide by (assumption || discriminate). }
  assert (Hsearch : forall i n,
            exists rows t, Crud.search_employee conn i n = (Return rows, t) /\ nine_wide rows).
  { intros i n. unfold Crud.search_employee, Crud.execute_select.
    destruct i as [i|]; [|destruct n as [n|]];
      try (eexists _, _; split; [reflexivity | constructor]);
      (destruct (Crud.refuses conn);
       eexists _, _; (split; [reflexivity | first [apply Hf | constructor]])). }
  unfold search_pressed. destruct search_button; [|reflexivity].
  destruct (str_eqb search_by_option (lit "ID") && _).
  - destruct (Hsearch (chosen_id search_by_option id_input) None) as (rows & t & -> & Hr).
    rewrite fst_bind_return. exact (Hshow rows Hr).
  - destruct (str_eqb search_by_option (lit "Name") && _).
    + destruct (Hsearch None (chosen_name search_by_option name_input)) as (rows & t & -> & Hr).
      rewrite fst_bind_return. exact (Hshow rows Hr).
    + reflexivity.
Qed.

(** X22: "Remove Employee" without a value (the ID chosen and 0
    entered, or the name chosen and nothing entered) shows the warning,
    runs no statement and leaves the table as it is. *)
Theorem remove_employee_without_value (conn : Crud.connection) (delete_by_option : str)
    (id_input : Z) (name_input : str) :
  (delete_by_option = lit "ID" -> id_input = 0%Z) ->
  (delete_by_option = lit "Name" -> name_input = []) ->
  remove_employee conn true delete_by_option id_input name_input =
  (Return conn, [st_warning (lit "Please provide a value for deletion.")]).
Proof.
  intros Hi Hn. unfold remove_employee, chosen_id, chosen_name.
  destruct (str_eqb delete_by_option (lit "ID")) eqn:E1.
  - apply str_eqb_eq in E1. rewrite (Hi E1). subst delete_by_option. reflexivity.
  - destruct (str_eqb delete_by_option (lit "Name")) eqn:E2; [|reflexivity].
    apply str_eqb_eq in E2. rewrite (Hn E2). reflexivity.
Qed.

(** X23: "Add Employee" with the name or the designation left empty
    shows the warning, runs no statement and leaves the table as it
    is. *)
Theorem submit_new_employee_required_fields (conn : Crud.connection) (rowid : Z)
    (name : str) (salary age : cell) (gender designation : str)
    (working_hours lunch_bill bonus : cell) :
  name = [] \/ designation = [] ->
  submit_new_employee text_cell conn rowid true name salary age gender designation
    working_hours lunch_bill bonus =
  (Return conn, [st_warning (lit "Please fill out the required fields: Name and Designation.")]).
Proof.
  intros [-> | ->]; unfold submit_new_employee; [reflexivity|].
  now destruct name.
Qed.

(** X24: "Add Employee" with both required fields filled, on a
    connection that accepts the statement and with an ID no row has:
    the success notice names the employee, and the row stored carries
    the gender and the designation as texts; a search by the new ID
    then gives exactly that row. *)
Theorem submit_new_employee_stores_the_row (conn : Crud.connection) (rowid : Z)
    (name : str) (salary age : cell) (gender designation : str)
    (working_hours lunch_bill bonus : cell) :
  name <> [] -> designation <> [] ->
  Crud.refuses conn = None ->
  (forall e, In e (Crud.EMPLOYEE conn) -> Crud.ID e <> rowid) ->
  exists conn' params,
    submit_new_employee text_cell conn rowid true name salary age gender designation
      working_hours lunch_bill bonus =
    (Return conn',
     [cur_execute Crud.insert_sql params; conn_commit;
      st_success (lit "Employee '" ++ name ++ lit "' added successfully!")])
    /\ fst (Crud.search_employee conn' (Some rowid) None) =
       Return [{| Crud.ID := rowid; Crud.NAME := name;
                  Crud.attributes := [salary; age; text_cell gender; text_cell designation;
                                      working_hours; lunch_bill; bonus] |}].
Proof.
  intros Hn Hd Hr Hfresh.
  destruct (@add_then_queries py conn rowid
              {| Crud.name := name; Crud.salary := salary; Crud.age := age;
                 Crud.gender := text_cell gender; Crud.designation := text_cell designation;
                 Crud.working_hours := working_hours; Crud.lunch_bill := lunch_bill;
                 Crud.bonus := bonus |} Hr Hfresh) as (conn' & params & Ha & Hs & _).
  exists conn', params. split; [|now rewrite Hs].
  unfold submit_new_employee.
  destruct name; [congruence|]. destruct designation; [congruence|].
  cbn [truthy negb orb]. rewrite Ha. reflexivity.
Qed.

(** X25: [create_connection] lets no [sqlite3.Error] out: a failure to
    open the file is shown with its message and None is returned; an
    opened connection is returned as it is. *)
Theorem create_connection_reports (eng : engine) (db_file : str) :
  (forall d, connecting eng db_file = Raise (sqlite3_Error d) ->
     create_connection eng db_file =
     (Return None,
      [sqlite3_connect db_file; st_error (lit "Error connecting to database: " ++ d)]))
  /\ (connecting eng db_file = Return tt ->
      create_connection eng db_file = (Return (Some db_file), [sqlite3_connect db_file]))
  /\ (forall d, fst (create_connection eng db_file) <> Raise (sqlite3_Error d)).
Proof.
  unfold create_connection. split; [|split].
  - intros d ->. reflexivity.
  - intros ->. reflexivity.
  - intros d. destruct (connecting eng db_file) as [[]|[]]; discriminate.
Qed.

End FormExtras.

Lemma show_roster_shows_the_table_witness :
  nine_wide (Crud.EMPLOYEE staff)
  /\ show_roster (py := py_values) v_int v_str staff =
     (Return tt,
      [st_subheader (lit "Current Employee Roster");
       cur_execute (lit "SELECT * FROM EMPLOYEE") []; cur_fetchall;
       st_dataframe
         (@Build_DataFrame py_values canonical_columns
            [as_tuple (py := py_values) v_int v_str sara;
             as_tuple (py := py_values) v_int v_str omid])]).
Proof.
  assert (H : nine_wide (Crud.EMPLOYEE staff)) by (repeat constructor).
  split; [exact H|].
  exact (proj2 (@show_roster_shows_the_table py_values v_int v_str staff H) eq_refl).
Defined.

Lemma show_roster_when_refused_witness :
  Crud.refuses locked = Some (lit "database is locked")
  /\ show_roster (py := py_values) v_int v_str locked =
     (Return tt,
      [st_subheader (lit "Current Employee Roster");
       cur_execute (lit "SELECT * FROM EMPLOYEE") [];
       st_error (lit "Error retrieving data: database is locked");
       st_info (lit "The employee table is currently empty.")]).
Proof.
  split; [reflexivity|].
  exact (@show_roster_when_refused py_values v_int v_str locked (lit "database is locked") eq_refl).
Defined.

Lemma search_pressed_never_raises_witness :
  nine_wide (Crud.EMPLOYEE staff)
  /\ fst (search_pressed (py := py_values) v_int v_str staff true (lit "Name") 1 (lit "Sara"))
     = Return tt.
Proof.
  assert (H : nine_wide (Crud.EMPLOYEE staff)) by (repeat constructor).
  split; [exact H|].
  exact (@search_pressed_never_raises py_values v_int v_str staff true (lit "Name") 1
           (lit "Sara") H).
Defined.

Lemma submit_new_employee_required_fields_witness :
  (lit "Neda" = [] \/ @nil ascii = [])
  /\ submit_new_employee (py := py_values) v_str staff 3 true (lit "Neda") (v_int 50000)
       (v_int 31) (lit "Female") [] (v_int 40) (v_int 100) (v_int 0) =
     (Return staff,
      [st_warning (lit "Please fill out the required fields: Name and Designation.")]).
Proof.
  split; [now right|].
  exact (@submit_new_employee_required_fields py_values v_str staff 3 (lit "Neda")
           (v_int 50000) (v_int 31) (lit "Female") [] (v_int 40) (v_int 100) (v_int 0)
           (or_intror eq_refl)).
Defined.

Lemma submit_new_employee_stores_the_row_witness :
  lit "Neda" <> [] /\ lit "Designer" <> []
  /\ Crud.refuses staff = None
  /\ (forall e, In e (Crud.EMPLOYEE staff) -> Crud.ID e <> 3%Z)
  /\ exists conn',
      fst (submit_new_employee (py := py_values) v_str staff 3 true (lit "Neda") (v_int 50000)
             (v_int 31) (lit "Female") (lit "Designer") (v_int 40) (v_int 100) (v_int 0))
      = Return conn'
      /\ fst (Crud.search_employee conn' (Some 3%Z) None) = Return [Crud.inserted 3 newcomer].
Proof.
  assert (H : forall e, In e (Crud.EMPLOYEE staff) -> Crud.ID e <> 3%Z).
  { intros e [<- | [<- | []]]; discriminate. }
  assert (H1 : lit "Neda" <> []) by discriminate.
  assert (H2 : lit "Designer" <> []) by discriminate.
  split; [exact H1|]. split; [exact H2|]. split; [reflexivity|]. split; [exact H|].
  destruct (@submit_new_employee_stores_the_row py_values v_str staff 3 (lit "Neda")
              (v_int 50000) (v_int 31) (lit "Female") (lit "Designer") (v_int 40) (v_int 100)
              (v_int 0) H1 H2 eq_refl H) as (conn' & params & Hs & Hq).
  exists conn'. rewrite Hs. split; [reflexivity | exact Hq].
Defined.

Lemma create_connection_reports_witness :
  connecting (py := py_values) unopenable (lit "company.db")
    = Raise (sqlite3_Error (lit "unable to open database file"))
  /\ create_connection (py := py_values) unopenable (lit "company.db") =
     (Return None,
      [sqlite3_connect (lit "company.db");
       st_error (lit "Error connecting to database: unable to open database file")]).
Proof.
  split; [reflexivity|].
  exact (proj1 (@create_connection_reports py_values unopenable (lit "company.db"))
           (lit "unable to open database file") eq_refl).
Defined.

Lemma search_pressed_without_value_witness :
  (lit "Name" = lit "ID" -> 7%Z = 0%Z)
  /\ (lit "Name" = lit "Name" -> @nil ascii = [])
  /\ search_pressed (py := py_values) v_int v_str staff true (lit "Name") 7 [] =
     (Return tt,
      [st_warning (lit "Please provide a value for search.");
       st_info (lit "No employee found matching your search criteria.")]).
Proof.
  assert (H1 : lit "Name" = lit "ID" -> 7%Z = 0%Z) by discriminate.
  assert (H2 : lit "Name" = lit "Name" -> @nil ascii = []) by reflexivity.
  split; [exact H1|]. split; [exact H2|].
  exact (@search_pressed_without_value py_values v_int v_str staff (lit "Name") 7 [] H1 H2).
Defined.

Lemma remove_employee_without_value_witness :
  (lit "ID" = lit "ID" -> 0%Z = 0%Z)
  /\ (lit "ID" = lit "Name" -> lit "Sara" = [])
  /\ remove_employee staff true (lit "ID") 0 (lit "Sara") =
     (Return staff, [st_warning (lit "Please provide a value for deletion.")]).
Proof.
  assert (H1 : lit "ID" = lit "ID" -> 0%Z = 0%Z) by reflexivity.
  assert (H2 : lit "ID" = lit "Name" -> lit "Sara" = []) by discriminate.
  split; [exact H1|]. split; [exact H2|].
  exact (@remove_employee_without_value py_values staff (lit "ID") 0 (lit "Sara") H1 H2).
Defined.

Lemma extract_sql_has_no_margin_witness :
  extract_sql (lit "  SELECT 1 ") = lit "SELECT 1"
  /\ is_space "S"%char = false
  /\ is_space (last (lit "SELECT 1") "S"%char) = false.
Proof.
  split; [reflexivity|].
  exact (proj2 (extract_sql_has_no_margin (lit "  SELECT 1 ")) "S"%char (lit "ELECT 1") eq_refl).
Defined.
